(** * EV dashboard: the aggregation pipeline of [app.py]

    A shallow embedding of [load_and_analyze_data] and of the script around
    it, and the properties of the two derived tables.

    Conventions of the model.
    - A data frame is the list of its rows, in file order.  A missing cell
      (pandas' NaN) is [None].  A file that [read_csv] reads is taken to
      hold the four columns of the script, [Model Year] with integers and
      [Electric Range] with numbers: a file without one of them makes line
      33 or 43 raise outside the [try], which is not modelled.
    - Numeric cells and averages are exact rationals ([Q]), which is what
      the order and the presence of the averages need; the values of the
      averages as float64 arithmetic gives them are those of module [f64].
    - The sorting routine behind [DataFrame.sort_values] (numpy's [argsort]
      of the default [kind='quicksort']) is a parameter of the pipeline: the
      results that depend on it assume only that, on the column at hand, it
      returns the indices [0 .. n-1] in an order that makes the values
      ascend.  A model of numpy's scalar routine, the one that runs where
      numpy dispatches to no SIMD sort, is given as an instance. *)

From Stdlib Require Import PrimFloat.
From Stdlib Require FloatOps Uint63.
From Stdlib Require Import QArith.
From stdpp Require Import gmap strings list sorting pretty.

Local Open Scope Z_scope.
Local Open Scope nat_scope.

(** ** Data model *)

(** One row of the CSV file, restricted to the four columns the script reads. *)
Record Row := mkRow {
  Make : option string;
  Model_Year : option Z;
  Electric_Vehicle_Type : option string;
  Electric_Range : option Q
}.

Abbreviation DataFrame := (list Row).

(** Rows of [ev_counts_by_make_year]: Make, Model Year, Total EVs. *)
Record CountRow := mkCountRow {
  cr_Make : string;
  cr_Model_Year : Z;
  Total_EVs : nat
}.

(** Rows of [avg_range_by_type]: Electric Vehicle Type and
    Average Electric Range (Miles); [None] is NaN. *)
Record AvgRow := mkAvgRow {
  ar_Type : string;
  Average_Electric_Range : option Q
}.

(** ** Group keys *)

(** Lexicographic order on (Make, Model Year), the order in which a
    two-level [groupby] lists its groups; the years are integers. *)
Definition tuple_leb (a b : string * Z) : bool :=
  match String.compare a.1 b.1 with
  | Lt => true
  | Gt => false
  | Eq => (a.2 <=? b.2)%Z
  end.

Definition tuple_le (a b : string * Z) : Prop := Is_true (tuple_leb a b).
Definition str_le (a b : string) : Prop := Is_true (String.leb a b).

#[global] Instance tuple_le_dec a b : Decision (tuple_le a b).
Proof. unfold tuple_le. apply _. Defined.
#[global] Instance str_le_dec a b : Decision (str_le a b).
Proof. unfold str_le. apply _. Defined.

Section groupby.
Context {K : Type} `{EqDecision K} (R : relation K) `{∀ x y, Decision (R x y)}.

(** The group labels of [df.groupby(keys)] with its defaults
  [sort=True, dropna=True]: rows with a missing key are dropped, the
  distinct keys are collected in order of appearance and then sorted. *)
Definition group_keys (keys : list (option K)) : list K :=
  merge_sort R (remove_dups (omap id keys)).

(** The rows of one group, in file order. *)
Definition get_group {A} (key : A → option K) (k : K) (df : list A) : list A :=
  filter (λ r, key r = Some k) df.
End groupby.

(** The key of a row for [groupby(['Make', 'Model Year'])]: missing as soon
    as one of the two cells is. *)
Definition make_year (r : Row) : option (string * Z) :=
  match Make r, Model_Year r with
  | Some m, Some y => Some (m, y)
  | _, _ => None
  end.

(** [df.groupby(['Make', 'Model Year']).size().reset_index(name='Total EVs')] *)
Definition groupby_size (df : DataFrame) : list CountRow :=
  (λ k, mkCountRow k.1 k.2 (length (get_group make_year k df)))
    <$> group_keys tuple_le (make_year <$> df).

(** The reduction of [GroupBy.mean] over one group: one pass over the
    rows that accumulates the sum and the number of observations, a missing
    value adding to neither; no observation yields NaN.  The sum is exact
    here; [f64.group_mean] has the float64 one. *)
Definition mean_step (t : string) (acc : Q * nat) (r : Row) : Q * nat :=
  if decide (Electric_Vehicle_Type r = Some t) then
    match Electric_Range r with
    | Some v => (Qplus acc.1 v, S acc.2)
    | None => acc
    end
  else acc.

Definition mean_finish (acc : Q * nat) : option Q :=
  match acc.2 with
  | O => None
  | S _ => Some (Qdiv acc.1 (inject_Z (Z.of_nat acc.2)))
  end.

Definition group_mean (t : string) (df : DataFrame) : option Q :=
  mean_finish (foldl (mean_step t) (0%Q, 0) df).

(** [df.groupby('Electric Vehicle Type')['Electric Range'].mean()
       .reset_index(name='Average Electric Range (Miles)')] *)
Definition groupby_mean (df : DataFrame) : list AvgRow :=
  (λ t, mkAvgRow t (group_mean t df))
    <$> group_keys str_le (Electric_Vehicle_Type <$> df).

(** ** Sorting *)

(** The comparison of a column's element type, numpy's [Tag::less]. *)
Class Dtype (V : Type) := less : V → V → bool.
#[global] Instance int64 : Dtype nat := Nat.ltb.
#[global] Instance float64 : Dtype Q := λ x y, negb (Qle_bool y x).

(** [ndarray.argsort]: from an array to the indices that sort it. *)
Definition Argsort := ∀ V, Dtype V → list V → list nat.

(** [np.nonzero(mask)[0]] *)
Fixpoint nonzero_from (i : nat) (mask : list bool) : list nat :=
  match mask with
  | [] => []
  | b :: mask' =>
      if b then i :: nonzero_from (S i) mask' else nonzero_from (S i) mask'
  end.
Definition nonzero := nonzero_from 0.

(** [isna(items)] *)
Definition isna {V} (items : list (option V)) : list bool :=
  (λ o, if o is None then true else false) <$> items.

Section sort_values.
Context {V : Type} (argsort : list V → list nat).

(** pandas' [nargsort(items, kind, ascending=False, na_position='last')]:
  the present values are reversed, sorted ascending by [argsort], the
  result reversed again, and the positions of the missing values are
  appended.  An index outside the array, which numpy would reject, is
  dropped. *)
Definition nargsort (items : list (option V)) : list nat :=
  let mask := isna items in
  let non_nans := omap id items in
  let non_nan_idx := nonzero (negb <$> mask) in
  let nan_idx := nonzero mask in
  let non_nans := reverse non_nans in
  let non_nan_idx := reverse non_nan_idx in
  let indexer := omap (λ j, non_nan_idx !! j) (argsort non_nans) in
  let indexer := reverse indexer in
  indexer ++ nan_idx.

(** [frame.take(indexer)] *)
Definition take_rows {A} (indexer : list nat) (rows : list A) : list A :=
  omap (λ i, rows !! i) indexer.

(** [frame.sort_values(by=col, ascending=False)] *)
Definition sort_values {A} (by_ : A → option V) (rows : list A) : list A :=
  take_rows (nargsort (by_ <$> rows)) rows.
End sort_values.

(** [frame.head(n)] *)
Definition head {A} (n : nat) (rows : list A) : list A := take n rows.

(** ** The two derived tables *)

Section tables.
Variable argsort : Argsort.

(** Lines 33 and 36 of [app.py]: the counts of all groups, sorted. *)
Definition ev_counts_by_make_year (df : DataFrame) : list CountRow :=
let ev_counts_by_make_year := groupby_size df in
sort_values (argsort nat _) (λ r, Some (Total_EVs r)) ev_counts_by_make_year.

(** Line 39: table A. *)
Definition top_10_ev_counts (df : DataFrame) : list CountRow :=
head 10 (ev_counts_by_make_year df).

(** Lines 43 and 46: table B. *)
Definition avg_range_by_type (df : DataFrame) : list AvgRow :=
let avg_range_by_type := groupby_mean df in
sort_values (argsort Q _) Average_Electric_Range avg_range_by_type.
End tables.

(** ** Table B on float64 cells

    The averages above are exact rationals.  pandas holds the column
    [Electric Range] as float64, NaN where the file has no value, and
    [GroupBy.mean] runs [group_mean] of [pandas/_libs/groupby.pyx] on it: one
    pass over the rows that, for each group, counts the cells that are not
    NaN and adds them up with Kahan's compensation; the mean is the sum over
    the count.  This module gives lines 43 and 46 on such cells. *)
Module f64.

(** The two columns that line 43 reads. *)
Record Row := mkRow {
  Electric_Vehicle_Type : option string;
  Electric_Range : float
}.

Abbreviation DataFrame := (list Row).

Record AvgRow := mkAvgRow {
  ar_Type : string;
  Average_Electric_Range : float
}.

#[global] Instance float64 : Dtype float := PrimFloat.ltb.

(** The state of [group_mean] for one group. *)
Record Acc := mkAcc {
  nobs : nat;
  sumx : float;
  compensation : float
}.

(** The body of its loop for a cell [val] of the group: a NaN is passed
    over; the compensation is reset when it is NaN itself, which an
    infinite [val] brings about. *)
Definition add_kahan (acc : Acc) (val : float) : Acc :=
  if is_nan val then acc
  else
    let y := (val - compensation acc)%float in
    let t := (sumx acc + y)%float in
    let c := (t - sumx acc - y)%float in
    mkAcc (S (nobs acc)) t (if is_nan c then 0%float else c).

Definition mean_step (t : string) (acc : Acc) (r : Row) : Acc :=
  if decide (Electric_Vehicle_Type r = Some t)
  then add_kahan acc (Electric_Range r)
  else acc.

(** The count, an int64, as the float64 it is divided by. *)
Definition of_count (n : nat) : float :=
  of_uint63 (Uint63.of_Z (Z.of_nat n)).

Definition mean_finish (acc : Acc) : float :=
  match nobs acc with
  | O => nan
  | S _ => (sumx acc / of_count (nobs acc))%float
  end.

Definition group_mean (t : string) (df : DataFrame) : float :=
  mean_finish (foldl (mean_step t) (mkAcc 0 0 0) df).

(** Line 43. *)
Definition groupby_mean (df : DataFrame) : list AvgRow :=
  (λ t, mkAvgRow t (group_mean t df))
    <$> group_keys str_le (Electric_Vehicle_Type <$> df).

(** A cell as [sort_values] takes it: NaN is a missing value. *)
Definition notna (x : float) : option float :=
  if is_nan x then None else Some x.

(** Lines 43 and 46: table B. *)
Definition avg_range_by_type (argsort : Argsort) (df : DataFrame) : list AvgRow :=
let avg_range_by_type := groupby_mean df in
sort_values (argsort float _) (λ r, notna (Average_Electric_Range r))
  avg_range_by_type.

(** The [Electric Range] values present among the rows of type [t], in
    file order. *)
Definition ranges_of_type (t : string) (df : DataFrame) : list float :=
  filter (λ v, is_nan v = false)
    (Electric_Range <$> filter (λ r, Electric_Vehicle_Type r = Some t) df).

(** The sum of a list of float64 values from left to right, with Kahan's
    compensation [c] carried along the running sum [s]. *)
Fixpoint kahan_sum_from (s c : float) (l : list float) : float :=
  match l with
  | [] => s
  | v :: l' =>
      let y := (v - c)%float in
      let t := (s + y)%float in
      let c' := (t - s - y)%float in
      kahan_sum_from t (if is_nan c' then 0%float else c') l'
  end.

(** The mean of float64 values as float64 arithmetic gives it: their sum
    over their number, NaN for no value. *)
Definition mean (l : list float) : float :=
  match l with
  | [] => nan
  | _ => (kahan_sum_from 0 0 l / of_count (length l))%float
  end.

(** The number that a float64 stands for; none for NaN and the
    infinities. *)
Definition exact_value (x : float) : option Q :=
  match FloatOps.Prim2SF x with
  | SpecFloat.S754_zero _ => Some 0%Q
  | SpecFloat.S754_finite s m e =>
      Some ((if s then - inject_Z (Z.pos m) else inject_Z (Z.pos m)) * 2 ^ e)%Q
  | _ => None
  end.

(** The example of the specification: three BEV with ranges 250, 270 and
    150. *)
Definition sample : DataFrame :=
  [ mkRow (Some "BEV") 250; mkRow (Some "BEV") 270; mkRow (Some "BEV") 150 ].

(** 0.1 as a float64: the nearest one, 0x1.999999999999ap-4. *)
Definition tenth : float := 0x1.999999999999ap-4.

(** Three BEV with a range of 0.1 each. *)
Definition three_tenths : DataFrame :=
  [ mkRow (Some "BEV") tenth; mkRow (Some "BEV") tenth; mkRow (Some "BEV") tenth ].

End f64.

(** ** numpy's scalar [argsort(kind='quicksort')]

    The routine that [sort_values] reaches with its default [kind] where
    numpy dispatches to no SIMD sort (a CPU without AVX2 and AVX-512, or a
    run with them disabled): an introsort on the index array [tosort], by
    median-of-three partitions above [SMALL_QUICKSORT] elements, insertion
    sort below, and heapsort once the depth limit is used up.  Pointers into
    [tosort] are positions.  Where numpy dispatches to a SIMD sort the
    result is sorted as well and may differ in the order of equal values. *)
Module npy.
Section npysort.
Context {V : Type} `{Dtype V} (v : list V).

Definition SMALL_QUICKSORT : nat := 16.

(** [v[i]] for an index read from [tosort]; the comparison is false on an
  index outside [v], which the routine never produces. *)
Definition less_at (i j : option nat) : bool :=
  match i ≫= (v !!.), j ≫= (v !!.) with
  | Some x, Some y => less x y
  | _, _ => false
  end.

Definition INTP_SWAP (a : list nat) (p q : nat) : list nat :=
  match a !! p, a !! q with
  | Some x, Some y => <[q:=x]> (<[p:=y]> a)
  | _, _ => a
  end.

(** [do ++pi; while (less(v[*pi], vp))] *)
Fixpoint scan_up (fuel : nat) (a : list nat) (vp : option nat) (pi : nat) : nat :=
  match fuel with
  | O => S pi
  | S fuel =>
      let pi := S pi in
      if less_at (a !! pi) vp then scan_up fuel a vp pi else pi
  end.

(** [do --pj; while (less(vp, v[*pj]))] *)
Fixpoint scan_down (fuel : nat) (a : list nat) (vp : option nat) (pj : nat) : nat :=
  match fuel with
  | O => pred pj
  | S fuel =>
      let pj := pred pj in
      if less_at vp (a !! pj) then scan_down fuel a vp pj else pj
  end.

Fixpoint partition_loop (fuel : nat) (a : list nat) (vp : option nat)
    (pi pj : nat) : list nat * nat :=
  match fuel with
  | O => (a, pi)
  | S fuel =>
      let pi := scan_up (length a) a vp pi in
      let pj := scan_down (length a) a vp pj in
      if pj <=? pi then (a, pi)
      else partition_loop fuel (INTP_SWAP a pi pj) vp pi pj
  end.

(** One partition of [pl .. pr]; returns the array and the final place
  [pi] of the pivot. *)
Definition partition (a : list nat) (pl pr : nat) : list nat * nat :=
  let pm := pl + (pr - pl) / 2 in
  let a := if less_at (a !! pm) (a !! pl) then INTP_SWAP a pm pl else a in
  let a := if less_at (a !! pr) (a !! pm) then INTP_SWAP a pr pm else a in
  let a := if less_at (a !! pm) (a !! pl) then INTP_SWAP a pm pl else a in
  let vp := a !! pm in
  let pi := pl in
  let pj := pr - 1 in
  let a := INTP_SWAP a pm pj in
  let '(a, pi) := partition_loop (length a) a vp pi pj in
  let pk := pr - 1 in
  (INTP_SWAP a pi pk, pi).

(** [while (pj > pl && less(vp, v[*pk])) *pj-- = *pk--;  *pj = vi;] *)
Fixpoint insert_down (fuel : nat) (a : list nat) (vi pl pj : nat) : list nat :=
  match fuel with
  | O => <[pj:=vi]> a
  | S fuel =>
      if (pl <? pj) && less_at (Some vi) (a !! (pj - 1)) then
        insert_down fuel (<[pj:=a !!! (pj - 1)]> a) vi pl (pj - 1)
      else <[pj:=vi]> a
  end.

(** [for (pi = pl + 1; pi <= pr; ++pi)] *)
Fixpoint insertion_sort (n : nat) (a : list nat) (pl pi : nat) : list nat :=
  match n with
  | O => a
  | S n => insertion_sort n (insert_down (length a) a (a !!! pi) pl pi) pl (S pi)
  end.

(** [aheapsort] on the [n] entries from position [pl]; [a[k]] of the source
  (one-based) is position [pl + k - 1]. *)
Definition hget (a : list nat) (pl k : nat) : option nat := a !! (pl + k - 1).
Definition hset (a : list nat) (pl k x : nat) : list nat := <[pl + k - 1:=x]> a.

Fixpoint sift (fuel : nat) (a : list nat) (pl tmp i j n : nat) : list nat :=
  match fuel with
  | O => hset a pl i tmp
  | S fuel =>
      if j <=? n then
        let j := if (j <? n) && less_at (hget a pl j) (hget a pl (j + 1))
                 then j + 1 else j in
        if less_at (Some tmp) (hget a pl j) then
          sift fuel (hset a pl i (default 0 (hget a pl j))) pl tmp j (j + j) n
        else hset a pl i tmp
      else hset a pl i tmp
  end.

Fixpoint heapify (l : nat) (a : list nat) (pl n : nat) : list nat :=
  match l with
  | O => a
  | S l' => heapify l' (sift n a pl (default 0 (hget a pl l)) l (2 * l) n) pl n
  end.

Fixpoint heap_extract (n : nat) (a : list nat) (pl : nat) : list nat :=
  match n with
  | O | 1 => a
  | S n' =>
      let tmp := default 0 (hget a pl n) in
      let a := hset a pl n (default 0 (hget a pl 1)) in
      heap_extract n' (sift n a pl tmp 1 2 n') pl
  end.

Definition aheapsort (a : list nat) (pl n : nat) : list nat :=
  heap_extract n (heapify (n / 2) a pl n) pl.

(** The main loop.  [top] tells that control is at the head of the outer
  loop, where alone the depth limit is tested. *)
Fixpoint aquicksort_loop (fuel : nat) (top : bool) (a : list nat) (pl pr : nat)
    (stack : list (nat * nat)) (depth : list Z) (cdepth : Z) : list nat :=
  match fuel with
  | O => a
  | S fuel =>
      let stack_pop a :=
        match stack, depth with
        | (pl, pr) :: stack, cdepth :: depth =>
            aquicksort_loop fuel true a pl pr stack depth cdepth
        | _, _ => a
        end in
      if top && (cdepth <? 0)%Z then
        stack_pop (aheapsort a pl (pr - pl + 1))
      else if SMALL_QUICKSORT <? pr - pl then
        let '(a, pi) := partition a pl pr in
        let cdepth := (cdepth - 1)%Z in
        if pi - pl <? pr - pi then
          aquicksort_loop fuel false a pl (pi - 1)
            ((pi + 1, pr) :: stack) (cdepth :: depth) cdepth
        else
          aquicksort_loop fuel false a (pi + 1) pr
            ((pl, pi - 1) :: stack) (cdepth :: depth) cdepth
      else
        stack_pop (insertion_sort (pr - pl) a pl (S pl))
  end.

Definition npy_get_msb (num : nat) : nat := Nat.log2 num.

Definition aquicksort (tosort : list nat) : list nat :=
  let num := length tosort in
  aquicksort_loop (2 * num + 2) true tosort 0 (num - 1) [] []
    (2 * Z.of_nat (npy_get_msb num))%Z.
End npysort.

(** [v.argsort(kind='quicksort')]: the index array starts as [arange]. *)
Definition argsort : Argsort := λ V _ v, aquicksort v (seq 0 (length v)).
End npy.

(** ** What the pipeline asks of the sorting routine *)

(** The values of [v] at the indices [ix], in that order. *)
Definition values_at {V} (v : list V) (ix : list nat) : list V :=
  omap (λ i, v !! i) ix.

(** No element is smaller than its predecessor. *)
Definition ascending {V} `{Dtype V} : list V → Prop :=
  Sorted (λ x y, less y x = false).

(** No element is larger than its predecessor. *)
Definition descending {V} `{Dtype V} : list V → Prop :=
  Sorted (λ x y, less x y = false).

(** The result of [argsort] on [v] is a rearrangement of [0 .. n-1]. *)
Definition argsort_ok_perm {V} (argsort : list V → list nat) (v : list V) : Prop :=
  argsort v ≡ₚ seq 0 (length v).

(** It is a rearrangement along which the values ascend.  Nothing is said
    about equal values. *)
Definition argsort_ok {V} `{Dtype V} (argsort : list V → list nat) (v : list V) : Prop :=
  argsort_ok_perm argsort v ∧ ascending (values_at v (argsort v)).

(** The arrays that [sort_values] passes to [argsort] for the two tables. *)
Definition counts_column (df : DataFrame) : list nat :=
  reverse (Total_EVs <$> groupby_size df).
Definition averages_column (df : DataFrame) : list Q :=
  reverse (omap Average_Electric_Range (groupby_mean df)).

(** ** The process: files, objects, page and cache *)

(** A Python object is named by its place in the heap. *)
Definition ref := nat.

Inductive PyObject :=
  | InputFrame (rows : DataFrame)
  | CountsFrame (rows : list CountRow) (Make_Year : option (list string))
  | AveragesFrame (rows : list AvgRow).

(** What [pd.read_csv] makes of a file that exists: a frame with the
    columns of the script, or an exception with its message. *)
Inductive File :=
  | Csv (rows : DataFrame)
  | Unreadable (e : string).

(** The elements Streamlit puts on the page. *)
Inductive Element :=
  | title (body : string)
  | markdown (body : string)
  | error (body : string)
  | header (body : string)
  | info (body : string)
  | subheader (body : string)
  | caption (body : string)
  | dataframe (data : PyObject)
  | altair_chart (data : PyObject).

(** The return value of [load_and_analyze_data], pickled. *)
Definition Pickled : Type := option (list CountRow) * option (list AvgRow).

(** An entry of the [st.cache_data] cache: the pickled return value and the
    elements the call put on the page, which a hit replays. *)
Record CacheEntry := mkCacheEntry {
  value : Pickled;
  elements : list Element
}.

Record World := mkWorld {
  files : gmap string File;
  heap : list PyObject;
  page : list Element;
  cache : gmap string CacheEntry
}.

(** The process as it starts: nothing allocated, shown or cached. *)
Definition process_start (fs : gmap string File) : World := mkWorld fs [] [] ∅.

(** Statements are state transformers on the world. *)
Definition M (A : Type) : Type := World → A * World.
#[global] Instance M_ret : MRet M := λ A x w, (x, w).
#[global] Instance M_bind : MBind M := λ A B f m w, f (m w).1 (m w).2.

Definition new (o : PyObject) : M ref := λ w,
  (length (heap w), mkWorld (files w) (heap w ++ [o]) (page w) (cache w)).
Definition get (r : ref) : M (option PyObject) := λ w, (heap w !! r, w).
Definition put (r : ref) (o : PyObject) : M () := λ w,
  ((), mkWorld (files w) (<[r:=o]> (heap w)) (page w) (cache w)).
Definition emit (e : Element) : M () := λ w,
  ((), mkWorld (files w) (heap w) (page w ++ [e]) (cache w)).

Definition input_rows (o : option PyObject) : DataFrame :=
  match o with Some (InputFrame rows) => rows | _ => [] end.
Definition count_rows (o : option PyObject) : list CountRow :=
  match o with Some (CountsFrame rows _) => rows | _ => [] end.
Definition avg_rows (o : option PyObject) : list AvgRow :=
  match o with Some (AveragesFrame rows) => rows | _ => [] end.

Module pd.
Inductive Raised :=
  | FileNotFoundError
  | Exception (e : string).

(** [pd.read_csv(file_path)] under [try]: the exception raised, or the
  new frame. *)
Definition read_csv (file_path : string) : M (Raised + ref) := λ w,
  match files w !! file_path with
  | None => (inl FileNotFoundError, w)
  | Some (Unreadable e) => (inl (Exception e), w)
  | Some (Csv rows) => (inr (new (InputFrame rows) w).1, (new (InputFrame rows) w).2)
  end.
End pd.

Module st.
Definition title (body : string) : M () := emit (title body).
Definition markdown (body : string) : M () := emit (markdown body).
Definition error (body : string) : M () := emit (error body).
Definition header (body : string) : M () := emit (header body).
Definition info (body : string) : M () := emit (info body).
Definition subheader (body : string) : M () := emit (subheader body).
Definition caption (body : string) : M () := emit (caption body).
Definition dataframe (data : ref) : M () :=
  o ← get data; if o is Some o then emit (dataframe o) else mret ().
Definition altair_chart (data : ref) : M () :=
  o ← get data; if o is Some o then emit (altair_chart o) else mret ().
End st.

Section app.
Variable argsort : Argsort.

(** [load_and_analyze_data], lines 15 to 48, without its decorator.  Every
  frame method reads its receiver and allocates its result. *)
Definition load_and_analyze_data (file_path : string)
    : M (option ref * option ref) :=
  r ← pd.read_csv file_path;
  match r with
  | inl pd.FileNotFoundError =>
      st.error ("Error: The file '" +:+ file_path +:+
                "' was not found. Please ensure it is in the correct directory.");;
      mret (None, None)
  | inl (pd.Exception e) =>
      st.error ("An error occurred during file loading: " +:+ e);;
      mret (None, None)
  | inr df =>
      o ← get df;
      ev_counts_by_make_year ← new (CountsFrame (groupby_size (input_rows o)) None);
      o ← get ev_counts_by_make_year;
      ev_counts_by_make_year ←
        new (CountsFrame
               (sort_values (argsort nat _) (λ r, Some (Total_EVs r)) (count_rows o))
               None);
      o ← get ev_counts_by_make_year;
      top_10_ev_counts ← new (CountsFrame (head 10 (count_rows o)) None);
      o ← get df;
      avg_range_by_type ← new (AveragesFrame (groupby_mean (input_rows o)));
      o ← get avg_range_by_type;
      avg_range_by_type ←
        new (AveragesFrame
               (sort_values (argsort Q _) Average_Electric_Range (avg_rows o)));
      mret (Some top_10_ev_counts, Some avg_range_by_type)
  end.

(** [pickle.dumps] of the return value. *)
Definition pickle (res : option ref * option ref) : M Pickled :=
  a ← (if res.1 is Some r then o ← get r; mret (Some (count_rows o)) else mret None);
  b ← (if res.2 is Some r then o ← get r; mret (Some (avg_rows o)) else mret None);
  mret (a, b).

(** [pickle.loads]: fresh objects. *)
Definition unpickle (v : Pickled) : M (option ref * option ref) :=
  a ← (if v.1 is Some rows then r ← new (CountsFrame rows None); mret (Some r)
       else mret None);
  b ← (if v.2 is Some rows then r ← new (AveragesFrame rows); mret (Some r)
       else mret None);
  mret (a, b).

(** The decorator [@st.cache_data], keyed by the argument.  A hit replays
  the recorded elements and returns a copy of the stored value.  A miss
  runs the function and stores what it returned with the elements it
  showed; the function returning at all is what fills the cache. *)
Definition cache_data (f : string → M (option ref * option ref))
    (file_path : string) : M (option ref * option ref) := λ w,
  match cache w !! file_path with
  | Some entry =>
      unpickle (value entry)
        (mkWorld (files w) (heap w) (page w ++ elements entry) (cache w))
  | None =>
      let '(res, w') := f file_path w in
      let entry := mkCacheEntry (pickle res w').1 (drop (length (page w)) (page w')) in
      (res, mkWorld (files w') (heap w') (page w') (<[file_path:=entry]> (cache w')))
  end.

Definition FILE_PATH : string := "EV Population Dataset.csv".

(** [top_10_ev_counts['Make_Year'] = ...] on line 83: a column is added
  to the object itself.  The years are printed as the integers of an int64
  column. *)
Definition assign_Make_Year (top_10_ev_counts : ref) : M () :=
  o ← get top_10_ev_counts;
  let rows := count_rows o in
  put top_10_ev_counts
    (CountsFrame rows
       (Some ((λ r, cr_Make r +:+ " (" +:+ pretty (cr_Model_Year r) +:+ ")") <$> rows))).

(** The script, lines 52 to 137, for one run. *)
Definition main : M () :=
  st.title "🔌 Electric Vehicle Population Dataset Analysis";;
  st.markdown "---";;
  res ← cache_data load_and_analyze_data FILE_PATH;
  match res with
  | (Some top_10_ev_counts, Some avg_range_by_type) =>
      st.header "1️⃣ Task 2: Top 10 EV Counts by Make and Model Year";;
      st.info "Aggregated total number of EVs for each Make and Model Year.";;
      st.subheader "Top 10 Aggregated Data Table";;
      st.dataframe top_10_ev_counts;;
      st.subheader "Visualization: Top 10 Counts";;
      assign_Make_Year top_10_ev_counts;;
      st.altair_chart top_10_ev_counts;;
      st.markdown "---";;
      st.header "2️⃣ Task 3: Average Electric Range by EV Type";;
      st.info "Calculated average Electric Range for each Electric Vehicle Type, sorted descending.";;
      st.subheader "Average Range Data Table";;
      st.dataframe avg_range_by_type;;
      st.subheader "Visualization: Average Range";;
      st.altair_chart avg_range_by_type;;
      st.markdown "---";;
      st.caption ("Data Source: **" +:+ FILE_PATH +:+
                  "** | Analysis performed using pandas and displayed with Streamlit.")
  | _ => mret ()
  end.
End app.

(** A rerun of the script starts from an empty page; the cache stays. *)
Definition rerun (w : World) : World := mkWorld (files w) (heap w) [] (cache w).

(** The files changing under the process. *)
Definition with_files (fs : gmap string File) (w : World) : World :=
  mkWorld fs (heap w) (page w) (cache w).

(** ** Notions used to state the properties *)




(** [a >= b] on float64: false as soon as one side is NaN. *)
Definition float_ge (a b : option Q) : bool :=
  match a, b with
  | Some x, Some y => Qle_bool y x
  | _, _ => false
  end.

(** Equality of averages as numbers; NaN stands for the mean of nothing. *)
Definition float_eq (a b : option Q) : Prop :=
  match a, b with
  | Some x, Some y => Qeq x y
  | None, None => True
  | _, _ => False
  end.

(** The [Electric Range] values present among the rows of type [t]. *)
Definition ranges_of_type (t : string) (df : DataFrame) : list Q :=
  omap Electric_Range (filter (λ r, Electric_Vehicle_Type r = Some t) df).

Definition sum_Q (l : list Q) : Q := foldr Qplus 0%Q l.

(** The arithmetic mean as the specification words it: the sum of the
    values over their number. *)
Definition arithmetic_mean (l : list Q) : option Q :=
  match l with
  | [] => None
  | _ => Some (Qdiv (sum_Q l) (inject_Z (Z.of_nat (length l))))
  end.

(** A row has both fields of the key of table A. *)
Definition both_present (r : Row) : Prop :=
  is_Some (Make r) ∧ is_Some (Model_Year r).

#[global] Instance both_present_dec r : Decision (both_present r).
Proof. unfold both_present. apply _. Defined.

(** A Model Year that a float64 cell holds exactly.  pandas reads the
    column as int64 when every cell is an integer that fits, and as float64
    once a cell is missing; within these bounds the order and the equality
    of the years are those of the integers in both. *)
Definition exact_year (r : Row) : Prop :=
  match Model_Year r with
  | Some y => (- 2 ^ 53 ≤ y ≤ 2 ^ 53)%Z
  | None => True
  end.

#[global] Instance exact_year_dec r : Decision (exact_year r).
Proof. unfold exact_year. destruct (Model_Year r); apply _. Defined.

(** The Model Year column is read as int64: no cell of it is missing and
    every year fits. *)
Definition Model_Year_int64 (r : Row) : Prop :=
  match Model_Year r with
  | Some y => (- 2 ^ 63 ≤ y < 2 ^ 63)%Z
  | None => False
  end.

#[global] Instance Model_Year_int64_dec r : Decision (Model_Year_int64 r).
Proof. unfold Model_Year_int64. destruct (Model_Year r); apply _. Defined.

(** The text shown for each of the two kinds of failure. *)
Definition error_message (file_path : string) (exc : pd.Raised) : string :=
  match exc with
  | pd.FileNotFoundError =>
      "Error: The file '" +:+ file_path +:+
      "' was not found. Please ensure it is in the correct directory."
  | pd.Exception e => "An error occurred during file loading: " +:+ e
  end.

(** The world after [e] is put on the page. *)
Definition shown (e : Element) (w : World) : World :=
  mkWorld (files w) (heap w) (page w ++ [e]) (cache w).

(** The world after the objects [os] are allocated. *)
Definition allocated (os : list PyObject) (w : World) : World :=
  mkWorld (files w) (heap w ++ os) (page w) (cache w).

(** The tables a returned pair of references stands for. *)
Definition tables_of (res : option ref * option ref) (w : World) : Pickled :=
  (pickle res w).1.

(** ** Sample datasets *)

(** The example of the specification. *)
Definition sample : DataFrame :=
  [ mkRow (Some "Tesla") (Some 2020%Z) (Some "BEV") (Some 250%Q);
    mkRow (Some "Tesla") (Some 2020%Z) (Some "BEV") (Some 270%Q);
    mkRow (Some "Nissan") (Some 2019%Z) (Some "BEV") (Some 150%Q) ].

Definition tesla : Row :=
  mkRow (Some "Tesla") (Some 2020%Z) (Some "BEV") (Some 250%Q).
Definition nissan : Row :=
  mkRow (Some "Nissan") (Some 2019%Z) (Some "BEV") (Some 150%Q).

(** A plug-in hybrid whose range is not recorded. *)
Definition no_range : Row :=
  mkRow (Some "Nissan") (Some 2019%Z) (Some "PHEV") None.

(** A row without a vehicle type. *)
Definition no_type : Row :=
  mkRow (Some "Kia") (Some 2021%Z) None (Some 30%Q).

Definition sample_missing_range : DataFrame := [tesla; no_range].
Definition sample_missing_type : DataFrame := [tesla; no_type; nissan].

(** Three types, one of them without any recorded range. *)
Definition three_types : DataFrame :=
  [ mkRow (Some "Tesla") (Some 2020%Z) (Some "BEV") (Some 100%Q);
    mkRow (Some "Nissan") (Some 2019%Z) (Some "BEV") (Some 200%Q);
    mkRow (Some "Toyota") (Some 2021%Z) (Some "PHEV") (Some 250%Q);
    mkRow (Some "Toyota") (Some 2022%Z) (Some "FCEV") None ].



(** Eighteen makes with one registration each: eighteen groups that tie. *)
Definition eighteen_makes : DataFrame :=
  (λ m, mkRow (Some m) (Some 2020%Z) (Some "BEV") (Some 100%Q))
    <$> ["A"; "B"; "C"; "D"; "E"; "F"; "G"; "H"; "I"; "J"; "K"; "L"; "M"; "N";
         "O"; "P"; "Q"; "R"].

(** A vehicle of an eleventh make, its range not recorded. *)
Definition no_range_K : Row :=
  mkRow (Some "K") (Some 2020%Z) (Some "BEV") None.

(** Ten makes registered twice each, and the eleventh once. *)
Definition eleven_groups : DataFrame :=
  ((λ m, mkRow (Some m) (Some 2020%Z) (Some "BEV") (Some 100%Q))
     <$> ["A"; "A"; "B"; "B"; "C"; "C"; "D"; "D"; "E"; "E";
          "F"; "F"; "G"; "G"; "H"; "H"; "I"; "I"; "J"; "J"])
  ++ [no_range_K].

#[global] Instance CountRow_eq_dec : EqDecision CountRow.
Proof. solve_decision. Defined.

(** The eighteen makes, the first of them registered twice. *)
Definition nineteen_rows : DataFrame :=
  eighteen_makes ++ [mkRow (Some "A") (Some 2020%Z) (Some "PHEV") None].

(** The (Make, Model Year) pair of a row of the counts. *)
Definition cr_key (c : CountRow) : string * Z := (cr_Make c, cr_Model_Year c).

(** ** The rendering part of the script *)

(** The labels of line 83: Make, then the Model Year in brackets, for a
    Model Year column of integers. *)
Definition Make_Year_labels (rows : list CountRow) : list string :=
  (λ r, cr_Make r +:+ " (" +:+ pretty (cr_Model_Year r) +:+ ")") <$> rows.

(** What lines 63 to 137 put on the page for the tables [A] and [B]. *)
Definition rendered_sections (A : list CountRow) (B : list AvgRow) : list Element :=
  [ header "1️⃣ Task 2: Top 10 EV Counts by Make and Model Year";
    info "Aggregated total number of EVs for each Make and Model Year.";
    subheader "Top 10 Aggregated Data Table";
    dataframe (CountsFrame A None);
    subheader "Visualization: Top 10 Counts";
    altair_chart (CountsFrame A (Some (Make_Year_labels A)));
    markdown "---";
    header "2️⃣ Task 3: Average Electric Range by EV Type";
    info "Calculated average Electric Range for each Electric Vehicle Type, sorted descending.";
    subheader "Average Range Data Table";
    dataframe (AveragesFrame B);
    subheader "Visualization: Average Range";
    altair_chart (AveragesFrame B);
    markdown "---";
    caption ("Data Source: **" +:+ FILE_PATH +:+
             "** | Analysis performed using pandas and displayed with Streamlit.") ].

(** The two elements every run starts with, lines 52 and 53. *)
Definition page_head : list Element :=
  [ title "🔌 Electric Vehicle Population Dataset Analysis"; markdown "---" ].

(** The sections a pickled result renders to: both tables, or nothing. *)
Definition sections_of (v : Pickled) : list Element :=
  match v with
  | (Some A, Some B) => rendered_sections A B
  | _ => []
  end.

(** The statements of the script from line 61 on, for the pair [res]. *)
Definition render (res : option ref * option ref) : M () :=
  match res with
  | (Some top_10_ev_counts, Some avg_range_by_type) =>
      st.header "1️⃣ Task 2: Top 10 EV Counts by Make and Model Year";;
      st.info "Aggregated total number of EVs for each Make and Model Year.";;
      st.subheader "Top 10 Aggregated Data Table";;
      st.dataframe top_10_ev_counts;;
      st.subheader "Visualization: Top 10 Counts";;
      assign_Make_Year top_10_ev_counts;;
      st.altair_chart top_10_ev_counts;;
      st.markdown "---";;
      st.header "2️⃣ Task 3: Average Electric Range by EV Type";;
      st.info "Calculated average Electric Range for each Electric Vehicle Type, sorted descending.";;
      st.subheader "Average Range Data Table";;
      st.dataframe avg_range_by_type;;
      st.subheader "Visualization: Average Range";;
      st.altair_chart avg_range_by_type;;
      st.markdown "---";;
      st.caption ("Data Source: **" +:+ FILE_PATH +:+
                  "** | Analysis performed using pandas and displayed with Streamlit.")
  | _ => mret ()
  end.

(** A process whose cache holds a failure for the path of the script. *)
Definition stale_world : World :=
  mkWorld ∅ [] [] {[ FILE_PATH := mkCacheEntry (None, None) [error "gone"] ]}.

(** ** Lemmas on lists *)

Section list_facts.
Context {A : Type}.
Implicit Types l : list A.

Lemma omap_lookup_seq_app l1 l2 :
  omap (λ i, (l1 ++ l2) !! i) (seq (length l1) (length l2)) = l2.
Proof.
  revert l1. induction l2 as [|x l2 IH]; intros l1; [done|].
  simpl. rewrite list_lookup_middle by done. f_equal.
  specialize (IH (l1 ++ [x])).
  rewrite <- app_assoc, length_app, Nat.add_comm in IH. exact IH.
Qed.

Lemma omap_lookup_seq l : omap (λ i, l !! i) (seq 0 (length l)) = l.
Proof. apply (omap_lookup_seq_app []). Qed.

Lemma take_rows_Permutation (ix : list nat) l :
  ix ≡ₚ seq 0 (length l) → omap (λ i, l !! i) ix ≡ₚ l.
Proof. intros ->. by rewrite omap_lookup_seq. Qed.

Lemma Sorted_take (R : relation A) n l : Sorted R l → Sorted R (take n l).
Proof.
  intros Hs. revert n. induction Hs as [|x l Hs IH Hd]; intros [|n]; simpl;
    try constructor; auto.
  destruct Hd, n; simpl; constructor; auto.
Qed.

Lemma filter_ext_elem_of (P1 P2 : A → Prop)
    `{∀ x, Decision (P1 x), ∀ x, Decision (P2 x)} l :
  (∀ x, x ∈ l → P1 x ↔ P2 x) → filter P1 l = filter P2 l.
Proof.
  induction l as [|x l IH]; intros HP; [done|].
  rewrite !filter_cons, IH by (intros; apply HP; by right).
  destruct (decide (P1 x)) as [H1|H1], (decide (P2 x)) as [H2|H2]; try done;
    apply HP in H1 || apply HP in H2; done || left.
Qed.

Lemma omap_lookup_fmap {B} (f : A → B) (ix : list nat) l :
  f <$> omap (λ i, l !! i) ix = omap (λ i, (f <$> l) !! i) ix.
Proof.
  induction ix as [|i ix IH]; [done|]. simpl.
  rewrite list_lookup_fmap. destruct (l !! i); simpl; [f_equal|]; exact IH.
Qed.
End list_facts.

(** ** The index arrays of [nargsort] *)

Section nargsort_facts.
Context {V : Type}.
Implicit Types items : list (option V).

Lemma omap_reverse {A B} (f : A → option B) (l : list A) :
  omap f (reverse l) = reverse (omap f l).
Proof.
  induction l as [|x l IH]; [done|].
  rewrite reverse_cons, omap_app, IH. simpl.
  destruct (f x); simpl; [by rewrite reverse_cons | by rewrite app_nil_r].
Qed.

Lemma length_non_nan_idx k items :
  length (nonzero_from k (negb <$> isna items)) = length (omap id items).
Proof.
  revert k. induction items as [|[x|] items IH]; intros k; simpl; auto.
Qed.

(** The [j]-th present value sits at the [j]-th index of [idx[~mask]]. *)
Lemma non_nan_idx_lookup k items j :
  (nonzero_from k (negb <$> isna items) !! j = None ∧ omap id items !! j = None)
  ∨ ∃ p x, nonzero_from k (negb <$> isna items) !! j = Some (k + p)
           ∧ omap id items !! j = Some x ∧ items !! p = Some (Some x).
Proof.
  revert k j. induction items as [|[y|] items IH]; intros k j; simpl.
  - left. by rewrite !lookup_nil.
  - destruct j as [|j]; simpl.
    + right. exists 0, y. by rewrite Nat.add_0_r.
    + destruct (IH (S k) j) as [[E1 E2]|(p & x & E1 & E2 & Hp)]; [by left|].
      right. exists (S p), x. replace (k + S p) with (S k + p) by lia.
      split_and!; [exact E1|exact E2|exact Hp].
  - destruct (IH (S k) j) as [[E1 E2]|(p & x & E1 & E2 & Hp)]; [by left|].
    right. exists (S p), x. replace (k + S p) with (S k + p) by lia.
      split_and!; [exact E1|exact E2|exact Hp].
Qed.

(** Every index of [np.nonzero(mask)] is the place of a missing value. *)
Lemma nan_idx_lookup k items i :
  i ∈ nonzero_from k (isna items) → ∃ p, i = k + p ∧ items !! p = Some None.
Proof.
  revert k. induction items as [|[y|] items IH]; intros k; simpl.
  - inversion 1.
  - intros (p & -> & Hp)%IH. exists (S p). split; [lia|done].
  - rewrite elem_of_cons. intros [->|(p & -> & Hp)%IH].
    + exists 0. split; [lia|done].
    + exists (S p). split; [lia|done].
Qed.

(** Together the two index arrays list every position once. *)
Lemma nonzero_Permutation k items :
  nonzero_from k (negb <$> isna items) ++ nonzero_from k (isna items)
  ≡ₚ seq k (length items).
Proof.
  revert k. induction items as [|[y|] items IH]; intros k; simpl.
  - done.
  - by rewrite IH.
  - by rewrite <- Permutation_middle, IH.
Qed.
End nargsort_facts.

(** ** [sort_values] *)

Section sort_values_facts.
Context {V A : Type} (argsort : list V → list nat) (by_ : A → option V).
Implicit Types rows : list A.

Lemma omap_id_fmap rows : omap id (by_ <$> rows) = omap by_ rows.
Proof.
  induction rows as [|r rows IH]; [done|]. csimpl. rewrite <- IH.
  by destruct (by_ r).
Qed.

Lemma omap_omap {B C D} (f : B → option C) (g : C → option D) (l : list B) :
  omap g (omap f l) = omap (λ x, f x ≫= g) l.
Proof.
  induction l as [|x l IH]; [done|]. csimpl.
  destruct (f x); csimpl; by rewrite IH.
Qed.

(** A sorted frame holds rows of the frame it was made from, whatever
  [argsort] answers. *)
Lemma elem_of_sort_values rows r :
  r ∈ sort_values argsort by_ rows → r ∈ rows.
Proof.
  unfold sort_values, take_rows. rewrite list_elem_of_omap.
  intros (i & _ & Hi). by eapply list_elem_of_lookup_2.
Qed.

(** The sorted column: the present values in the reverse of the order
  [argsort] gave them, then the missing ones. *)
Lemma sort_values_column rows :
  let v := reverse (omap by_ rows) in
  by_ <$> sort_values argsort by_ rows
  = (Some <$> reverse (values_at v (argsort v)))
    ++ replicate (length (nonzero (isna (by_ <$> rows)))) None.
Proof.
  intros v. unfold sort_values, take_rows, nargsort.
  rewrite omap_lookup_fmap, omap_id_fmap. fold v.
  set (items := by_ <$> rows).
  rewrite omap_app, omap_reverse, fmap_reverse. f_equal; [f_equal|].
  - unfold values_at. rewrite omap_omap, list_fmap_omap.
    apply list_omap_ext, Forall2_same_length_lookup_2; [done|].
    intros k j j' Hj ?; simplify_eq. clear k Hj.
    unfold v, nonzero. rewrite <- omap_id_fmap. fold items.
    destruct (decide (j < length (omap id items))) as [Hlt|Hge].
    + rewrite !reverse_lookup by (by rewrite ?length_non_nan_idx).
      rewrite length_non_nan_idx.
      destruct (non_nan_idx_lookup 0 items (length (omap id items) - S j))
        as [[-> ->]|(p & x & -> & -> & Hp)]; [done|]. simpl. by rewrite Hp.
    + rewrite !(proj2 (lookup_ge_None _ _));
        rewrite ?length_reverse, ?length_non_nan_idx; [done|lia..].
  - assert (∀ i, i ∈ nonzero (isna items) → items !! i = Some None) as Hna.
    { intros i (p & -> & Hp)%nan_idx_lookup. done. }
    induction (nonzero (isna items)) as [|i ix IH]; [done|].
    csimpl. rewrite (Hna i) by left. csimpl. f_equal.
    apply IH. intros i' Hi'. apply Hna. by right.
Qed.

(** With a rearrangement of the indices from [argsort], sorting keeps
  the rows: none is lost, none is repeated. *)
Lemma sort_values_Permutation rows :
  let v := reverse (omap by_ rows) in
  argsort v ≡ₚ seq 0 (length v) →
  sort_values argsort by_ rows ≡ₚ rows.
Proof.
  intros v Hperm. unfold sort_values. apply take_rows_Permutation.
  unfold nargsort. rewrite omap_id_fmap. fold v.
  rewrite reverse_Permutation, Hperm.
  replace (length v) with (length (reverse (nonzero (negb <$> isna (by_ <$> rows))))).
  - rewrite omap_lookup_seq, reverse_Permutation.
    rewrite <- (length_fmap by_ rows). apply nonzero_Permutation.
  - unfold v. rewrite !length_reverse, <- omap_id_fmap.
    apply length_non_nan_idx.
Qed.
End sort_values_facts.

(** ** Grouping *)

Section groupby_facts.
Context {K : Type} `{EqDecision K} (R : relation K) `{∀ x y, Decision (R x y)}.
Context {A : Type} (key : A → option K).
Implicit Types (df : list A) (ks : list K).

Lemma group_keys_Permutation (keys : list (option K)) :
  group_keys R keys ≡ₚ remove_dups (omap id keys).
Proof. apply merge_sort_Permutation. Qed.

(** One label per distinct key. *)
Lemma NoDup_group_keys (keys : list (option K)) : NoDup (group_keys R keys).
Proof. rewrite group_keys_Permutation. apply NoDup_remove_dups. Qed.

(** The labels are the keys that occur; a missing key is no label. *)
Lemma elem_of_group_keys (keys : list (option K)) k :
  k ∈ group_keys R keys ↔ Some k ∈ keys.
Proof.
  rewrite group_keys_Permutation, elem_of_remove_dups, list_elem_of_omap.
  split; [by intros ([x|] & ? & ?); simplify_eq/=|].
  intros ?. by exists (Some k).
Qed.

(** A row with a key falls in one group of a duplicate-free list of labels
  that has its key, and in none of a list that has not. *)
Lemma sum_group_sizes ks df :
  NoDup ks →
  sum_list_with (λ k, length (get_group key k df)) ks
  = length (filter (λ r, key r ∈ Some <$> ks) df).
Proof.
  intros Hnd. unfold get_group. induction df as [|r df IH].
  - induction ks; [done|]. simpl. inversion_clear Hnd. auto.
  - rewrite filter_cons.
    assert (sum_list_with (λ k, length (filter (λ r, key r = Some k) (r :: df))) ks
            = (if decide (key r ∈ Some <$> ks) then 1 else 0)
              + sum_list_with (λ k, length (filter (λ r, key r = Some k) df)) ks)
      as ->.
    { clear IH. induction ks as [|k ks IHks]; csimpl.
      - done.
      - inversion_clear Hnd as [|?? Hk Hnd']. rewrite IHks by done.
        rewrite filter_cons.
        destruct (decide (key r = Some k)) as [Hr|Hr],
          (decide (key r ∈ Some <$> ks)) as [Hex|Hex],
          (decide (key r ∈ Some k :: (Some <$> ks))) as [Hc|Hc];
          simpl; try lia; exfalso.
        + rewrite Hr in Hex. apply list_elem_of_fmap in Hex as (k' & ? & ?).
          by simplify_eq.
        + rewrite Hr in Hex. apply list_elem_of_fmap in Hex as (k' & ? & ?).
          by simplify_eq.
        + apply Hc. rewrite Hr. left.
        + apply Hc. by right.
        + by apply elem_of_cons in Hc as [?|?]. }
    rewrite IH. by case_decide.
Qed.

Lemma sum_all_group_sizes df :
  sum_list_with (λ k, length (get_group key k df)) (group_keys R (key <$> df))
  = length (filter (λ r, is_Some (key r)) df).
Proof.
  rewrite sum_group_sizes by apply NoDup_group_keys.
  f_equal. apply filter_ext_elem_of. intros r Hr. split.
  - intros (k & -> & _)%list_elem_of_fmap. by eexists.
  - intros [k Hk]. rewrite Hk. apply list_elem_of_fmap_2.
    apply elem_of_group_keys. rewrite <- Hk. by apply list_elem_of_fmap_2.
Qed.
End groupby_facts.

(** ** Order of the sorted column *)

Section order_facts.
Context {V A : Type} `{Dtype V} (argsort : list V → list nat) (by_ : A → option V).
Implicit Types rows : list A.

Lemma omap_Some_fmap {B C} (f : B → C) (l : list B) :
  omap (λ x, Some (f x)) l = f <$> l.
Proof. induction l as [|x l IH]; [done|]. csimpl. by rewrite IH. Qed.

Lemma omap_id_Some_app {B} (l : list B) k :
  omap id ((Some <$> l) ++ replicate k None) = l.
Proof.
  rewrite omap_app. replace (omap id (replicate k (@None B))) with (@nil B).
  - rewrite app_nil_r. induction l as [|x l IH]; [done|]. csimpl. by rewrite IH.
  - induction k as [|k IH]; [done|]. csimpl. by rewrite <- IH.
Qed.

(** The present values of the sorted column. *)
Lemma sort_values_present rows :
  let v := reverse (omap by_ rows) in
  omap by_ (sort_values argsort by_ rows) = reverse (values_at v (argsort v)).
Proof.
  intros v. rewrite <- omap_id_fmap, sort_values_column. apply omap_id_Some_app.
Qed.

Lemma ascending_reverse (l : list V) : ascending l → descending (reverse l).
Proof. apply Sorted_reverse. Qed.

(** Where [argsort] makes the values ascend, the sorted column descends. *)
Lemma sort_values_descending rows :
  argsort_ok argsort (reverse (omap by_ rows)) →
  descending (omap by_ (sort_values argsort by_ rows)).
Proof.
  intros [_ Hasc]. rewrite sort_values_present. by apply ascending_reverse.
Qed.

Lemma Sorted_lookup_S {B} (R : relation B) (l : list B) i a b :
  Sorted R l → l !! i = Some a → l !! S i = Some b → R a b.
Proof.
  intros Hs. revert i. induction Hs as [|x l Hs IH Hd]; intros i; [done|].
  destruct i as [|i]; simpl.
  - intros [= ->] Hb. destruct Hd as [|y l' Hxy]; simplify_eq/=. done.
  - apply IH.
Qed.
End order_facts.

(** ** Ties under a stable sort

    The two reversals of [nargsort] undo each other on ties: were [argsort]
    stable, the sorted frame would keep tied rows in the order of the frame
    it was made from.  The order of ties is the routine's alone. *)

Section stable_facts.
Context {V A : Type} (eqv : relation V) `{!Symmetric eqv}.
Context (argsort : list V → list nat) (by_ : A → option V).


Lemma omap_length_total {B C} (f : B → option C) (l : list B) :
  Forall (λ x, is_Some (f x)) l → length (omap f l) = length l.
Proof.
  induction 1 as [|x l [y Hy] _ IH]; [done|]. csimpl. rewrite Hy. simpl. by rewrite IH.
Qed.





End stable_facts.

(** ** Properties of the two tables *)

Lemma int64_not_less (x y : nat) : less x y = false ↔ y ≤ x.
Proof. unfold less, int64. apply Nat.ltb_ge. Qed.

Lemma float64_not_less (x y : Q) : less x y = false ↔ Qle y x.
Proof.
  unfold less, float64. rewrite negb_false_iff. apply Qle_bool_iff.
Qed.

Lemma sum_list_fmap {A} (f : A → nat) (l : list A) :
  sum_list (f <$> l) = sum_list_with f l.
Proof. induction l as [|x l IH]; [done|]. csimpl. by rewrite IH. Qed.

(** C4: over all (Make, Model Year) groups, before the cut to ten rows, the
    Total EVs add up to the number of input rows that have both a Make and
    a Model Year. *)
Theorem sum_Total_EVs_all_groups (df : DataFrame) :
  sum_list (Total_EVs <$> groupby_size df) = length (filter both_present df).
Proof.
  unfold groupby_size. rewrite <- list_fmap_compose, sum_list_fmap.
  erewrite (filter_ext_elem_of both_present (λ r, is_Some (make_year r))).
  - apply (sum_all_group_sizes tuple_le make_year).
  - intros r _. unfold both_present, make_year.
    destruct (Make r), (Model_Year r); split;
      try (intros [[? [=]] [? [=]]]); try (intros [? [=]]); eauto.
Qed.

(** C2: table A has at most ten rows, and the Total EVs of each row is
    greater than or equal to that of the next row. *)
Theorem table_A_at_most_10_rows_nonincreasing (argsort : Argsort) (df : DataFrame) :
  argsort_ok (argsort nat int64) (counts_column df) →
  length (top_10_ev_counts argsort df) ≤ 10 ∧
  ∀ i a b,
    top_10_ev_counts argsort df !! i = Some a →
    top_10_ev_counts argsort df !! S i = Some b →
    Total_EVs b ≤ Total_EVs a.
Proof.
  intros Hok. unfold top_10_ev_counts, ev_counts_by_make_year, head. split.
  - rewrite length_take. lia.
  - intros i a b Ha Hb. apply int64_not_less.
    apply (Sorted_lookup_S (λ x y : nat, less x y = false) (Total_EVs <$> take 10
      (sort_values (argsort nat int64) (λ r, Some (Total_EVs r)) (groupby_size df))) i).
    + rewrite fmap_take. apply Sorted_take.
      rewrite <- omap_Some_fmap. apply sort_values_descending.
      by rewrite omap_Some_fmap.
    + by rewrite list_lookup_fmap, Ha.
    + by rewrite list_lookup_fmap, Hb.
Qed.

Lemma Permutation_seq_intro (ix : list nat) (n : nat) :
  NoDup ix → length ix = n → Forall (λ i, i < n) ix → ix ≡ₚ seq 0 n.
Proof.
  intros Hnd Hlen Hlt. apply submseteq_length_Permutation.
  - apply NoDup_submseteq; [done|]. intros i Hi. apply elem_of_seq.
    rewrite Forall_forall in Hlt. specialize (Hlt i Hi). lia.
  - rewrite length_seq. lia.
Qed.

(** A check of [argsort_ok] that computes. *)
Lemma argsort_ok_intro {V} `{Dtype V} (argsort : list V → list nat) (v : list V) :
  bool_decide (NoDup (argsort v)) = true →
  length (argsort v) = length v →
  forallb (λ i, i <? length v) (argsort v) = true →
  bool_decide (ascending (values_at v (argsort v))) = true →
  argsort_ok argsort v.
Proof.
  intros Hnd%bool_decide_eq_true Hlen Hlt Hasc%bool_decide_eq_true. split; [|done].
  apply Permutation_seq_intro; [done..|].
  apply Forall_forall. intros i Hi. rewrite forallb_forall in Hlt.
  apply Nat.ltb_lt, Hlt. by apply list_elem_of_In.
Qed.

(** The rule holds on the spec's example: (Tesla, 2020, 2) comes before
    (Nissan, 2019, 1). *)
Lemma table_A_at_most_10_rows_nonincreasing_witness :
  top_10_ev_counts npy.argsort sample
    = [mkCountRow "Tesla" 2020 2; mkCountRow "Nissan" 2019 1] ∧
  length (top_10_ev_counts npy.argsort sample) ≤ 10 ∧
  ∀ i a b,
    top_10_ev_counts npy.argsort sample !! i = Some a →
    top_10_ev_counts npy.argsort sample !! S i = Some b →
    Total_EVs b ≤ Total_EVs a.
Proof.
  split; [reflexivity|].
  apply (table_A_at_most_10_rows_nonincreasing npy.argsort sample).
  apply argsort_ok_intro; vm_compute; reflexivity.
Defined.

(** The types listed by the grouping for table B are the group labels. *)
Lemma groupby_mean_types (df : DataFrame) :
  ar_Type <$> groupby_mean df = group_keys str_le (Electric_Vehicle_Type <$> df).
Proof.
  unfold groupby_mean. rewrite <- list_fmap_compose. apply list_fmap_id.
Qed.

Lemma averages_column_eq (df : DataFrame) :
  averages_column df = reverse (omap Average_Electric_Range (groupby_mean df)).
Proof. done. Qed.

Lemma avg_range_by_type_Permutation (argsort : Argsort) (df : DataFrame) :
  argsort_ok (argsort Q float64) (averages_column df) →
  avg_range_by_type argsort df ≡ₚ groupby_mean df.
Proof. intros [Hperm _]. by apply sort_values_Permutation. Qed.








(** ** The mean of a group *)

Lemma ranges_of_type_cons (t : string) (r : Row) (df : DataFrame) :
  ranges_of_type t (r :: df)
  = match decide (Electric_Vehicle_Type r = Some t), Electric_Range r with
    | left _, Some v => v :: ranges_of_type t df
    | _, _ => ranges_of_type t df
    end.
Proof.
  unfold ranges_of_type. rewrite filter_cons.
  destruct (decide (Electric_Vehicle_Type r = Some t)); [|done].
  csimpl. by destruct (Electric_Range r).
Qed.

(** The pass of [GroupBy.mean] adds up the recorded ranges of the type and
    counts them. *)
Lemma foldl_mean_step (t : string) (df : DataFrame) (s : Q) (n : nat) :
  (foldl (mean_step t) (s, n) df).2 = n + length (ranges_of_type t df) ∧
  Qeq (foldl (mean_step t) (s, n) df).1 (s + sum_Q (ranges_of_type t df)).
Proof.
  revert s n. induction df as [|r df IH]; intros s n.
  - simpl. split; [lia|]. unfold sum_Q. simpl. ring.
  - simpl. rewrite ranges_of_type_cons. unfold mean_step at 2 4.
    destruct (decide (Electric_Vehicle_Type r = Some t)) as [Ht|Ht];
      [destruct (Electric_Range r) as [v|]|]; try apply IH.
    destruct (IH (s + v)%Q (S n)) as [IH2 IH1]. cbn [fst snd]. split.
    + rewrite IH2. simpl. lia.
    + rewrite IH1. unfold sum_Q. simpl. ring.
Qed.

Lemma group_mean_arithmetic_mean (t : string) (df : DataFrame) :
  float_eq (group_mean t df) (arithmetic_mean (ranges_of_type t df)).
Proof.
  unfold group_mean, mean_finish.
  pose proof (foldl_mean_step t df 0%Q 0) as [Hn Hs].
  destruct (foldl (mean_step t) (0%Q, 0) df) as [s n]. cbn [fst snd] in *.
  subst n. destruct (ranges_of_type t df) as [|v l]; [done|].
  cbn [length Nat.add arithmetic_mean float_eq]. rewrite Hs.
  by rewrite Qplus_0_l.
Qed.

Lemma elem_of_groupby_mean (df : DataFrame) (row : AvgRow) :
  row ∈ groupby_mean df ↔
  row = mkAvgRow (ar_Type row) (group_mean (ar_Type row) df) ∧
  ∃ r, r ∈ df ∧ Electric_Vehicle_Type r = Some (ar_Type row).
Proof.
  unfold groupby_mean. rewrite list_elem_of_fmap. split.
  - intros (t & -> & Ht). split; [done|]. simpl.
    apply elem_of_group_keys, list_elem_of_fmap in Ht as (r & ? & ?).
    by exists r.
  - intros (Hrow & r & Hr & Ht). exists (ar_Type row). split; [done|].
    apply elem_of_group_keys. rewrite <- Ht. by apply list_elem_of_fmap_2.
Qed.

(** A type none of whose rows records a range has no average. *)
Lemma group_mean_no_range (t : string) (df : DataFrame) :
  (∀ r, r ∈ df → Electric_Vehicle_Type r = Some t → Electric_Range r = None) →
  group_mean t df = None.
Proof.
  intros Hnone.
  assert (ranges_of_type t df = []) as Hnil.
  { induction df as [|r df IH]; [done|].
    rewrite ranges_of_type_cons, IH.
    - destruct (decide (Electric_Vehicle_Type r = Some t)) as [Ht|]; [|done].
      by rewrite (Hnone r (list_elem_of_here _ _) Ht).
    - intros r' Hr'. apply Hnone. by apply list_elem_of_further. }
  pose proof (group_mean_arithmetic_mean t df) as Heq. rewrite Hnil in Heq.
  by destruct (group_mean t df).
Qed.

(** C3, amended: table B has exactly one row per distinct vehicle type
    present in the input, and its averages are non-increasing over the rows
    that have one; the rows whose average is NaN come after them, and the
    average of a type none of whose rows records a range is NaN. *)
Theorem table_B_one_row_per_type_nonincreasing (argsort : Argsort) (df : DataFrame) :
  argsort_ok (argsort Q float64) (averages_column df) →
  NoDup (ar_Type <$> avg_range_by_type argsort df) ∧
  (∀ t, t ∈ ar_Type <$> avg_range_by_type argsort df
        ↔ ∃ r, r ∈ df ∧ Electric_Vehicle_Type r = Some t) ∧
  (∃ (present : list Q) (k : nat),
     Average_Electric_Range <$> avg_range_by_type argsort df
       = (Some <$> present) ++ replicate k None ∧
     ∀ i x y, present !! i = Some x → present !! S i = Some y → Qle y x) ∧
  (∀ row, row ∈ avg_range_by_type argsort df →
     (∀ r, r ∈ df → Electric_Vehicle_Type r = Some (ar_Type row) →
           Electric_Range r = None) →
     Average_Electric_Range row = None).
Proof.
  intros Hok. pose proof (avg_range_by_type_Permutation argsort df Hok) as Hperm.
  split_and!.
  - rewrite Hperm, groupby_mean_types. apply NoDup_group_keys.
  - intros t. rewrite Hperm, groupby_mean_types, elem_of_group_keys.
    rewrite list_elem_of_fmap. split; intros (r & ? & ?); by exists r.
  - eexists _, _. split; [apply sort_values_column|].
    intros i x y Hx Hy. apply float64_not_less.
    destruct Hok as [_ Hasc]. apply ascending_reverse in Hasc.
    by eapply (Sorted_lookup_S (λ x y : Q, less x y = false)).
  - intros row [Hrow _]%elem_of_sort_values%elem_of_groupby_mean Hnone.
    rewrite Hrow. simpl. by apply group_mean_no_range.
Qed.

(** Three types: the grouping lists BEV (100 and 200, average 150), FCEV
    (no range recorded) and PHEV (250); the sort puts PHEV first and FCEV,
    whose average is NaN, last. *)
Lemma table_B_one_row_per_type_nonincreasing_witness :
  groupby_mean three_types
    = [mkAvgRow "BEV" (Some (300 # 2)%Q); mkAvgRow "FCEV" None;
       mkAvgRow "PHEV" (Some (250 # 1)%Q)] ∧
  avg_range_by_type npy.argsort three_types
    = [mkAvgRow "PHEV" (Some (250 # 1)%Q); mkAvgRow "BEV" (Some (300 # 2)%Q);
       mkAvgRow "FCEV" None] ∧
  NoDup (ar_Type <$> avg_range_by_type npy.argsort three_types) ∧
  (∀ t, t ∈ ar_Type <$> avg_range_by_type npy.argsort three_types
        ↔ ∃ r, r ∈ three_types ∧ Electric_Vehicle_Type r = Some t) ∧
  (∃ (present : list Q) (k : nat),
     Average_Electric_Range <$> avg_range_by_type npy.argsort three_types
       = (Some <$> present) ++ replicate k None ∧
     ∀ i x y, present !! i = Some x → present !! S i = Some y → Qle y x) ∧
  (∀ row, row ∈ avg_range_by_type npy.argsort three_types →
     (∀ r, r ∈ three_types → Electric_Vehicle_Type r = Some (ar_Type row) →
           Electric_Range r = None) →
     Average_Electric_Range row = None).
Proof.
  split; [reflexivity|]. split; [reflexivity|].
  apply (table_B_one_row_per_type_nonincreasing npy.argsort three_types).
  apply argsort_ok_intro; vm_compute; reflexivity.
Defined.

(** C3 as stated fails: a type none of whose rows records a range gets the
    average NaN, and 250 >= NaN is false. *)
Lemma table_B_not_nonincreasing_with_NaN :
  argsort_ok (npy.argsort Q float64) (averages_column sample_missing_range) ∧
  avg_range_by_type npy.argsort sample_missing_range
    = [mkAvgRow "BEV" (Some 250%Q); mkAvgRow "PHEV" None] ∧
  ¬ ∀ i a b,
      avg_range_by_type npy.argsort sample_missing_range !! i = Some a →
      avg_range_by_type npy.argsort sample_missing_range !! S i = Some b →
      float_ge (Average_Electric_Range a) (Average_Electric_Range b) = true.
Proof.
  split; [apply argsort_ok_intro; vm_compute; reflexivity|].
  split; [reflexivity|].
  intros Hge.
  specialize (Hge 0 (mkAvgRow "BEV" (Some 250%Q)) (mkAvgRow "PHEV" None)
                eq_refl eq_refl).
  discriminate Hge.
Qed.

(** ** The mean on float64 cells *)

Lemma f64_ranges_of_type_cons (t : string) (r : f64.Row) (df : f64.DataFrame) :
  f64.ranges_of_type t (r :: df)
  = if decide (f64.Electric_Vehicle_Type r = Some t) then
      if is_nan (f64.Electric_Range r) then f64.ranges_of_type t df
      else f64.Electric_Range r :: f64.ranges_of_type t df
    else f64.ranges_of_type t df.
Proof.
  unfold f64.ranges_of_type. rewrite filter_cons.
  destruct (decide (f64.Electric_Vehicle_Type r = Some t)); [|done].
  rewrite fmap_cons, filter_cons.
  destruct (is_nan (f64.Electric_Range r)) eqn:Hnan.
  - by rewrite decide_False by done.
  - by rewrite decide_True by done.
Qed.

(** The pass of [group_mean] counts the recorded ranges of the type and adds
    them up, and nothing else. *)
Lemma f64_foldl_mean_step (t : string) (df : f64.DataFrame) (acc : f64.Acc) :
  f64.nobs (foldl (f64.mean_step t) acc df)
    = f64.nobs acc + length (f64.ranges_of_type t df) ∧
  f64.sumx (foldl (f64.mean_step t) acc df)
    = f64.kahan_sum_from (f64.sumx acc) (f64.compensation acc)
        (f64.ranges_of_type t df).
Proof.
  revert acc. induction df as [|r df IH]; intros acc.
  - simpl. split; [lia|done].
  - cbn [foldl]. rewrite f64_ranges_of_type_cons. unfold f64.mean_step at 2 4.
    destruct (decide (f64.Electric_Vehicle_Type r = Some t)) as [Ht|Ht];
      [|apply IH].
    unfold f64.add_kahan.
    destruct (is_nan (f64.Electric_Range r)) eqn:Hnan; [apply IH|].
    match goal with
    | |- context [foldl _ ?a df] => destruct (IH a) as [IHn IHs]
    end.
    cbv zeta. split.
    + rewrite IHn. simpl. lia.
    + rewrite IHs. done.
Qed.

Lemma f64_group_mean_mean (t : string) (df : f64.DataFrame) :
  f64.group_mean t df = f64.mean (f64.ranges_of_type t df).
Proof.
  unfold f64.group_mean, f64.mean_finish, f64.mean.
  destruct (f64_foldl_mean_step t df (f64.mkAcc 0 0 0)) as [Hn Hs].
  rewrite Hn, Hs. cbn [f64.nobs f64.sumx f64.compensation Nat.add].
  by destruct (f64.ranges_of_type t df).
Qed.

Lemma elem_of_f64_groupby_mean (df : f64.DataFrame) (row : f64.AvgRow) :
  row ∈ f64.groupby_mean df ↔
  row = f64.mkAvgRow (f64.ar_Type row) (f64.group_mean (f64.ar_Type row) df) ∧
  ∃ r, r ∈ df ∧ f64.Electric_Vehicle_Type r = Some (f64.ar_Type row).
Proof.
  unfold f64.groupby_mean. rewrite list_elem_of_fmap. split.
  - intros (t & -> & Ht). split; [done|]. simpl.
    apply elem_of_group_keys, list_elem_of_fmap in Ht as (r & ? & ?).
    by exists r.
  - intros (Hrow & r & Hr & Ht). exists (f64.ar_Type row). split; [done|].
    apply elem_of_group_keys. rewrite <- Ht. by apply list_elem_of_fmap_2.
Qed.

(** C5, amended: the Average Electric Range of every row of table B is the
    float64 mean of the Electric Range values over exactly the input rows of
    that row's type, the rows without a range left out of the sum and of the
    divisor: the values are added up in file order in float64, with Kahan's
    compensation, and the sum is divided by their number; no value at all
    gives NaN.  Every row of table B has the type of some input row. *)
Theorem table_B_average_is_float64_mean
    (argsort : Argsort) (df : f64.DataFrame) (row : f64.AvgRow) :
  row ∈ f64.avg_range_by_type argsort df →
  f64.Average_Electric_Range row
    = f64.mean (f64.ranges_of_type (f64.ar_Type row) df) ∧
  ∃ r, r ∈ df ∧ f64.Electric_Vehicle_Type r = Some (f64.ar_Type row).
Proof.
  intros [Hrow Hr]%elem_of_sort_values%elem_of_f64_groupby_mean.
  split; [|done]. rewrite Hrow. simpl. apply f64_group_mean_mean.
Qed.

(** On the spec's example the one row of table B is (BEV,
    223.33333333333334), the float64 mean of 250, 270 and 150. *)
Lemma table_B_average_is_float64_mean_witness :
  f64.avg_range_by_type npy.argsort f64.sample
    = [f64.mkAvgRow "BEV" 0x1.beaaaaaaaaaabp+7%float] ∧
  f64.ranges_of_type "BEV" f64.sample = [250; 270; 150]%float ∧
  f64.exact_value 0x1.beaaaaaaaaaabp+7%float
    = Some (7857843099839147 # 35184372088832)%Q ∧
  0x1.beaaaaaaaaaabp+7%float = f64.mean (f64.ranges_of_type "BEV" f64.sample) ∧
  ∃ r, r ∈ f64.sample ∧ f64.Electric_Vehicle_Type r = Some "BEV".
Proof.
  assert (f64.mkAvgRow "BEV" 0x1.beaaaaaaaaaabp+7%float
            ∈ f64.avg_range_by_type npy.argsort f64.sample) as Hin
    by (apply (list_elem_of_lookup_2 _ 0); reflexivity).
  split; [reflexivity|]. split; [reflexivity|]. split; [reflexivity|].
  apply (table_B_average_is_float64_mean npy.argsort f64.sample _ Hin).
Defined.

(** C5 as stated fails: the average is a float64 mean, which need not be the
    arithmetic mean of the values, nor the float64 nearest to it.  Three
    vehicles of one type with a range of 0.1 each, 0x1.999999999999ap-4 as a
    float64, have that very number as their arithmetic mean; the average of
    table B is 0x1.999999999999bp-4, that is 0.10000000000000002, the next
    float64 above. *)
Lemma average_of_three_tenths_is_not_their_mean :
  f64.avg_range_by_type npy.argsort f64.three_tenths
    = [f64.mkAvgRow "BEV" 0x1.999999999999bp-4%float] ∧
  f64.ranges_of_type "BEV" f64.three_tenths
    = [0x1.999999999999ap-4; 0x1.999999999999ap-4; 0x1.999999999999ap-4]%float ∧
  float_eq (arithmetic_mean
              (omap f64.exact_value (f64.ranges_of_type "BEV" f64.three_tenths)))
           (f64.exact_value 0x1.999999999999ap-4%float) ∧
  ¬ float_eq (f64.exact_value 0x1.999999999999bp-4%float)
             (arithmetic_mean
                (omap f64.exact_value (f64.ranges_of_type "BEV" f64.three_tenths))).
Proof.
  split; [reflexivity|]. split; [reflexivity|]. split.
  - vm_compute. reflexivity.
  - vm_compute. discriminate.
Qed.

(** ** Rows with a missing cell *)

Lemma elem_of_groupby_size (df : DataFrame) (c : CountRow) :
  c ∈ groupby_size df ↔
  Total_EVs c = length (get_group make_year (cr_Make c, cr_Model_Year c) df) ∧
  ∃ r, r ∈ df ∧ make_year r = Some (cr_Make c, cr_Model_Year c).
Proof.
  unfold groupby_size. rewrite list_elem_of_fmap. split.
  - intros ([m y] & -> & Hk). split; [done|]. simpl.
    apply elem_of_group_keys, list_elem_of_fmap in Hk as (r & ? & ?).
    by exists r.
  - intros (Hc & r & Hr & Hk). exists (cr_Make c, cr_Model_Year c). split.
    + destruct c. simpl in *. by rewrite Hc.
    + apply elem_of_group_keys. rewrite <- Hk. by apply list_elem_of_fmap_2.
Qed.

Lemma elem_of_top_10_ev_counts (argsort : Argsort) (df : DataFrame) (c : CountRow) :
  c ∈ top_10_ev_counts argsort df → c ∈ groupby_size df.
Proof.
  unfold top_10_ev_counts, head. intros Hc.
  apply (elem_of_sort_values (argsort nat int64) (λ r, Some (Total_EVs r))).
  eapply subseteq_take, Hc.
Qed.

Lemma ev_counts_by_make_year_Permutation (argsort : Argsort) (df : DataFrame) :
  argsort_ok_perm (argsort nat int64) (counts_column df) →
  ev_counts_by_make_year argsort df ≡ₚ groupby_size df.
Proof.
  intros Hperm. apply sort_values_Permutation. by rewrite omap_Some_fmap.
Qed.

Lemma length_groupby_size (df : DataFrame) :
  length (groupby_size df) = length (remove_dups (omap make_year df)).
Proof.
  unfold groupby_size. rewrite length_fmap, group_keys_Permutation.
  by rewrite omap_id_fmap.
Qed.

(** A row that contributes nothing to the pass of [GroupBy.mean] can be
    taken out of the frame. *)
Lemma group_mean_skip (t : string) (df1 df2 : DataFrame) (r : Row) :
  Electric_Range r = None ∨ Electric_Vehicle_Type r ≠ Some t →
  group_mean t (df1 ++ r :: df2) = group_mean t (df1 ++ df2).
Proof.
  intros Hr. unfold group_mean. rewrite !foldl_app. simpl.
  replace (mean_step t (foldl (mean_step t) (0%Q, 0) df1) r)
    with (foldl (mean_step t) (0%Q, 0) df1); [done|].
  unfold mean_step. case_decide; [|done].
  destruct Hr as [->|?]; done.
Qed.

(** C6, amended: a row without an Electric Range whose Make and Model Year
    are present is counted in its (Make, Model Year) group, whose Total EVs
    is one more than the number of the other rows of the group.  The group
    is a row of table A whenever the input has at most ten groups, and
    wherever it is a row of table A it has that count; with more than ten
    groups [head(10)] may cut it.  The averages of table B are those of the
    input without that row. *)
Theorem missing_range_counted_in_A_left_out_of_mean
    (argsort : Argsort) (df1 df2 : DataFrame) (r : Row) (m : string) (y : Z) :
  argsort_ok_perm (argsort nat int64) (counts_column (df1 ++ r :: df2)) →
  Electric_Range r = None → Make r = Some m → Model_Year r = Some y →
  mkCountRow m y (S (length (get_group make_year (m, y) (df1 ++ df2))))
    ∈ groupby_size (df1 ++ r :: df2) ∧
  (length (remove_dups (omap make_year (df1 ++ r :: df2))) ≤ 10 →
   mkCountRow m y (S (length (get_group make_year (m, y) (df1 ++ df2))))
     ∈ top_10_ev_counts argsort (df1 ++ r :: df2)) ∧
  (∀ c, c ∈ top_10_ev_counts argsort (df1 ++ r :: df2) →
        cr_Make c = m → cr_Model_Year c = y →
        Total_EVs c = S (length (get_group make_year (m, y) (df1 ++ df2)))) ∧
  (∀ row, row ∈ avg_range_by_type argsort (df1 ++ r :: df2) →
          Average_Electric_Range row = group_mean (ar_Type row) (df1 ++ df2)).
Proof.
  intros Hperm Hrange Hm Hy.
  assert (make_year r = Some (m, y)) as Hk by (unfold make_year; by rewrite Hm, Hy).
  assert (length (get_group make_year (m, y) (df1 ++ r :: df2))
          = S (length (get_group make_year (m, y) (df1 ++ df2)))) as Hlen.
  { unfold get_group.
    rewrite !filter_app, filter_cons_True, !length_app by done. simpl. lia. }
  assert (mkCountRow m y (S (length (get_group make_year (m, y) (df1 ++ df2))))
            ∈ groupby_size (df1 ++ r :: df2)) as Hin.
  { apply elem_of_groupby_size. split; [exact (eq_sym Hlen)|]. simpl.
    exists r. split; [|done]. apply elem_of_app. right. left. }
  split_and!.
  - exact Hin.
  - intros Hten. unfold top_10_ev_counts, head.
    pose proof (ev_counts_by_make_year_Permutation _ _ Hperm) as Hp.
    rewrite take_ge by (rewrite Hp, length_groupby_size; lia).
    by rewrite Hp.
  - intros c [Hc _]%elem_of_top_10_ev_counts%elem_of_groupby_size <- <-.
    by rewrite Hc.
  - intros row [Hrow _]%elem_of_sort_values%elem_of_groupby_mean.
    rewrite Hrow. simpl. apply group_mean_skip. by left.
Qed.

(** C10: a row without an Electric Vehicle Type leaves no trace in table B,
    which is the table of the input without that row; and the type of every
    row of table B is the type of some input row. *)
Theorem missing_type_excluded_from_B
    (argsort : Argsort) (df1 df2 : DataFrame) (r : Row) :
  Electric_Vehicle_Type r = None →
  avg_range_by_type argsort (df1 ++ r :: df2) = avg_range_by_type argsort (df1 ++ df2) ∧
  ∀ row, row ∈ avg_range_by_type argsort (df1 ++ r :: df2) →
         ∃ r', r' ∈ df1 ++ df2 ∧ Electric_Vehicle_Type r' = Some (ar_Type row).
Proof.
  intros Ht.
  assert (groupby_mean (df1 ++ r :: df2) = groupby_mean (df1 ++ df2)) as Hg.
  { unfold groupby_mean, group_keys.
    rewrite !fmap_app, fmap_cons, !omap_app, Ht. csimpl.
    apply list_fmap_ext. intros _ t _. f_equal.
    apply group_mean_skip. right. by rewrite Ht. }
  unfold avg_range_by_type. rewrite Hg. split; [done|].
  intros row [_ Hrow]%elem_of_sort_values%elem_of_groupby_mean. done.
Qed.

(** A Nissan of 2019 without a range, next to one with a range: the group
    has two vehicles in table A, and the average of BEV is that of the two
    other rows. *)
Lemma missing_range_counted_in_A_left_out_of_mean_witness :
  top_10_ev_counts npy.argsort ([tesla] ++ no_range :: [nissan])
    = [mkCountRow "Nissan" 2019 2; mkCountRow "Tesla" 2020 1] ∧
  avg_range_by_type npy.argsort ([tesla] ++ no_range :: [nissan])
    = [mkAvgRow "BEV" (Some (400 # 2)%Q); mkAvgRow "PHEV" None] ∧
  mkCountRow "Nissan" 2019
      (S (length (get_group make_year ("Nissan", 2019%Z) ([tesla] ++ [nissan]))))
    ∈ groupby_size ([tesla] ++ no_range :: [nissan]) ∧
  (length (remove_dups (omap make_year ([tesla] ++ no_range :: [nissan]))) ≤ 10 →
   mkCountRow "Nissan" 2019
       (S (length (get_group make_year ("Nissan", 2019%Z) ([tesla] ++ [nissan]))))
     ∈ top_10_ev_counts npy.argsort ([tesla] ++ no_range :: [nissan])) ∧
  (∀ c, c ∈ top_10_ev_counts npy.argsort ([tesla] ++ no_range :: [nissan]) →
        cr_Make c = "Nissan" → cr_Model_Year c = 2019%Z →
        Total_EVs c
        = S (length (get_group make_year ("Nissan", 2019%Z) ([tesla] ++ [nissan])))) ∧
  (∀ row, row ∈ avg_range_by_type npy.argsort ([tesla] ++ no_range :: [nissan]) →
          Average_Electric_Range row = group_mean (ar_Type row) ([tesla] ++ [nissan])).
Proof.
  split; [reflexivity|]. split; [reflexivity|].
  apply (missing_range_counted_in_A_left_out_of_mean
           npy.argsort [tesla] [nissan] no_range);
    [apply argsort_ok_intro; vm_compute; reflexivity|reflexivity..].
Defined.

(** C6 as stated fails: with more than ten groups the group of such a row
    need not be in table A.  Ten makes are registered twice and an eleventh
    once, without a range: its group has one vehicle, the ten rows of table
    A have two each, and none of them is the group of that row. *)
Lemma missing_range_group_cut_by_head :
  argsort_ok (npy.argsort nat int64) (counts_column eleven_groups) ∧
  (no_range_K ∈ eleven_groups ∧ Electric_Range no_range_K = None ∧
   Make no_range_K = Some "K" ∧ Model_Year no_range_K = Some 2020%Z) ∧
  mkCountRow "K" 2020 1 ∈ groupby_size eleven_groups ∧
  Total_EVs <$> top_10_ev_counts npy.argsort eleven_groups = replicate 10 2 ∧
  ¬ ∃ c, c ∈ top_10_ev_counts npy.argsort eleven_groups ∧ cr_Make c = "K".
Proof.
  split; [|split; [|split; [|split]]].
  - apply argsort_ok_intro; vm_compute; reflexivity.
  - split_and!; [|reflexivity..].
    apply (list_elem_of_lookup_2 _ 20). reflexivity.
  - apply (bool_decide_unpack _). vm_compute. exact I.
  - reflexivity.
  - assert (Forall (λ c, cr_Make c ≠ "K")
              (top_10_ev_counts npy.argsort eleven_groups)) as Hall
      by (apply (bool_decide_unpack _); vm_compute; exact I).
    intros (c & Hc & HK). rewrite Forall_forall in Hall. by apply (Hall c).
Qed.

Lemma missing_type_excluded_from_B_witness :
  avg_range_by_type npy.argsort ([tesla] ++ no_type :: [nissan])
    = [mkAvgRow "BEV" (Some (400 # 2)%Q)] ∧
  avg_range_by_type npy.argsort ([tesla] ++ no_type :: [nissan])
    = avg_range_by_type npy.argsort ([tesla] ++ [nissan]) ∧
  ∀ row, row ∈ avg_range_by_type npy.argsort ([tesla] ++ no_type :: [nissan]) →
         ∃ r', r' ∈ [tesla] ++ [nissan] ∧ Electric_Vehicle_Type r' = Some (ar_Type row).
Proof.
  split; [reflexivity|].
  apply (missing_type_excluded_from_B npy.argsort [tesla] [nissan] no_type).
  reflexivity.
Defined.

(** ** Runs of [load_and_analyze_data] *)

Lemma lookup_app_plus {A} (l k : list A) (i : nat) :
  (l ++ k) !! (length l + i) = k !! i.
Proof. rewrite lookup_app_r by lia. f_equal. lia. Qed.

Lemma lookup_app_length {A} (l k : list A) : (l ++ k) !! length l = k !! 0.
Proof. rewrite <- (Nat.add_0_r (length l)) at 1. apply lookup_app_plus. Qed.

(** Normal form of the heap after some allocations. *)
Ltac heap_simpl :=
  repeat first
    [ rewrite <- app_assoc
    | rewrite length_app
    | rewrite lookup_app_length
    | rewrite lookup_app_plus
    | progress cbn [app length lookup list_lookup Nat.add fst snd
                    input_rows count_rows avg_rows] ].

Section runs.
Variable argsort : Argsort.

(** A failed read: the message is shown and [(None, None)] returned;
    nothing is allocated. *)
Lemma load_and_analyze_data_raised (file_path : string) (w : World) (exc : pd.Raised) :
  (pd.read_csv file_path w).1 = inl exc →
  load_and_analyze_data argsort file_path w
  = ((None, None), shown (error (error_message file_path exc)) w).
Proof.
  unfold load_and_analyze_data, pd.read_csv, mbind, M_bind.
  destruct (files w !! file_path) as [[rows|e]|]; intros [= <-]; reflexivity.
Qed.

(** A successful read: six frames are allocated, the input first, the two
    tables fourth and sixth; nothing is shown. *)
Lemma load_and_analyze_data_loaded (file_path : string) (w : World) (df : DataFrame) :
  files w !! file_path = Some (Csv df) →
  load_and_analyze_data argsort file_path w
  = ((Some (length (heap w) + 3), Some (length (heap w) + 5)),
     allocated [InputFrame df;
                CountsFrame (groupby_size df) None;
                CountsFrame (ev_counts_by_make_year argsort df) None;
                CountsFrame (top_10_ev_counts argsort df) None;
                AveragesFrame (groupby_mean df);
                AveragesFrame (avg_range_by_type argsort df)] w).
Proof.
  intros Hfile.
  assert (∀ {A B} (m : M A) (f : A → M B) w0, (m ≫= f) w0 = f (m w0).1 (m w0).2)
    as Hbind by done.
  assert (∀ o w0, new o w0 = (length (heap w0), allocated [o] w0)) as Hnew by done.
  assert (∀ r w0, get r w0 = (heap w0 !! r, w0)) as Hget by done.
  assert (∀ os os' w0, allocated os' (allocated os w0) = allocated (os ++ os') w0)
    as Halloc by (intros; unfold allocated; cbn; by rewrite <- app_assoc).
  assert (pd.read_csv file_path w
          = (inr (length (heap w)), allocated [InputFrame df] w)) as Hread
    by (unfold pd.read_csv; by rewrite Hfile).
  unfold load_and_analyze_data.
  rewrite Hbind, Hread. cbn [fst snd].
  do 10 (rewrite Hbind, ?Hget, ?Hnew, ?Halloc; cbn [fst snd];
         unfold allocated at 1; cbn [heap]; heap_simpl;
         fold (allocated []) ; idtac).
  unfold mret, M_ret, allocated. cbn [files heap page cache].
  repeat f_equal; lia.
Qed.

(** The pair returned after a successful read stands for tables A and B. *)
Lemma load_and_analyze_data_tables (file_path : string) (w : World) (df : DataFrame) :
  files w !! file_path = Some (Csv df) →
  tables_of (load_and_analyze_data argsort file_path w).1
            (load_and_analyze_data argsort file_path w).2
  = (Some (top_10_ev_counts argsort df), Some (avg_range_by_type argsort df)).
Proof.
  intros Hfile. rewrite (load_and_analyze_data_loaded _ _ _ Hfile).
  unfold tables_of, pickle, allocated, mbind, M_bind, mret, M_ret, get.
  cbn [fst snd files heap page cache]. heap_simpl. reflexivity.
Qed.
End runs.

(** ** Failure of the load *)

(** Whether reading fails, and how, depends on the files alone. *)
Lemma read_csv_raised_files (file_path : string) (w w' : World) (exc : pd.Raised) :
  files w' = files w →
  (pd.read_csv file_path w).1 = inl exc → (pd.read_csv file_path w').1 = inl exc.
Proof.
  unfold pd.read_csv. intros ->.
  by destruct (files w !! file_path) as [[rows|e]|].
Qed.

(** C7: when the dataset cannot be loaded, a missing file raising
    FileNotFoundError and any other failure an exception with its message,
    [load_and_analyze_data] shows the error message and returns
    [(None, None)], allocating nothing; and the script, on its first call,
    shows the title, the rule and that message, and none of the tables and
    charts. *)
Theorem failed_load_shows_error_and_no_tables
    (argsort : Argsort) (file_path : string) (w : World) :
  (∀ df, files w !! file_path ≠ Some (Csv df)) →
  ∃ exc,
    (pd.read_csv file_path w).1 = inl exc ∧
    (files w !! file_path = None → exc = pd.FileNotFoundError) ∧
    load_and_analyze_data argsort file_path w
      = ((None, None), shown (error (error_message file_path exc)) w) ∧
    (file_path = FILE_PATH → cache w !! FILE_PATH = None →
     heap (main argsort w).2 = heap w ∧
     page (main argsort w).2
       = page w ++ [title "🔌 Electric Vehicle Population Dataset Analysis";
                    markdown "---";
                    error (error_message FILE_PATH exc)]).
Proof.
  intros Hfail.
  assert (∃ exc, (pd.read_csv file_path w).1 = inl exc ∧
                 (files w !! file_path = None → exc = pd.FileNotFoundError))
    as (exc & Hexc & Hnone).
  { unfold pd.read_csv.
    destruct (files w !! file_path) as [[rows|e]|] eqn:Hfile.
    - by destruct (Hfail rows).
    - exists (pd.Exception e). by split.
    - by exists pd.FileNotFoundError. }
  exists exc. split_and!; [done..| |].
  - by apply load_and_analyze_data_raised.
  - intros -> Hcache.
    unfold main, st.title, st.markdown, emit, mbind, M_bind.
    cbn [fst snd]. unfold cache_data. cbn [cache files heap page].
    rewrite Hcache.
    rewrite (load_and_analyze_data_raised argsort FILE_PATH _ exc)
      by (by eapply read_csv_raised_files, Hexc).
    cbn. rewrite <- !app_assoc. done.
Qed.

Lemma failed_load_shows_error_and_no_tables_witness :
  (∀ df, files (process_start ∅) !! FILE_PATH ≠ Some (Csv df)) ∧
  page (main npy.argsort (process_start ∅)).2
    = [title "🔌 Electric Vehicle Population Dataset Analysis";
       markdown "---";
       error "Error: The file 'EV Population Dataset.csv' was not found. Please ensure it is in the correct directory."] ∧
  ∃ exc,
    (pd.read_csv FILE_PATH (process_start ∅)).1 = inl exc ∧
    (files (process_start ∅) !! FILE_PATH = None → exc = pd.FileNotFoundError) ∧
    load_and_analyze_data npy.argsort FILE_PATH (process_start ∅)
      = ((None, None), shown (error (error_message FILE_PATH exc)) (process_start ∅)) ∧
    (FILE_PATH = FILE_PATH → cache (process_start ∅) !! FILE_PATH = None →
     heap (main npy.argsort (process_start ∅)).2 = heap (process_start ∅) ∧
     page (main npy.argsort (process_start ∅)).2
       = page (process_start ∅)
         ++ [title "🔌 Electric Vehicle Population Dataset Analysis";
             markdown "---";
             error (error_message FILE_PATH exc)]).
Proof.
  assert (∀ df, files (process_start ∅) !! FILE_PATH ≠ Some (Csv df)) as Hfail
    by (intros df; simpl; by rewrite lookup_empty).
  split_and!; [exact Hfail|reflexivity|].
  apply (failed_load_shows_error_and_no_tables npy.argsort FILE_PATH _ Hfail).
Defined.

(** ** The cache *)

Lemma load_and_analyze_data_cache (argsort : Argsort) (file_path : string) (w : World) :
  cache (load_and_analyze_data argsort file_path w).2 = cache w.
Proof.
  destruct (files w !! file_path) as [[df|e]|] eqn:Hfile.
  - by rewrite (load_and_analyze_data_loaded _ _ _ df).
  - by rewrite (load_and_analyze_data_raised _ _ _ (pd.Exception e))
      by (unfold pd.read_csv; by rewrite Hfile).
  - by rewrite (load_and_analyze_data_raised _ _ _ pd.FileNotFoundError)
      by (unfold pd.read_csv; by rewrite Hfile).
Qed.

(** Unpickling allocates copies that stand for the pickled tables. *)
Lemma tables_of_unpickle (v : Pickled) (w : World) :
  tables_of (unpickle v w).1 (unpickle v w).2 = v ∧
  cache (unpickle v w).2 = cache w ∧
  page (unpickle v w).2 = page w ∧
  files (unpickle v w).2 = files w.
Proof.
  destruct v as [[a|] [b|]];
    unfold tables_of, pickle, unpickle, mbind, M_bind, mret, M_ret, new, get;
    cbn [fst snd files heap page cache]; heap_simpl; done.
Qed.

(** C8, amended: the cache of [load_and_analyze_data], keyed by the path,
    is empty when the process starts; the first call for a path fills its
    entry whether the load succeeded or failed, a failure being stored as
    [(None, None)] with its error message, so that a later call for the path
    replays it and does not read the file again; and no entry is ever
    removed or replaced. *)
Theorem cache_filled_by_first_call_and_kept
    (argsort : Argsort) (file_path : string) (w : World) :
  (∀ fs, cache (process_start fs) = ∅) ∧
  (∀ q entry,
     cache w !! q = Some entry →
     cache (cache_data (load_and_analyze_data argsort) file_path w).2 !! q
       = Some entry) ∧
  (∀ entry,
     cache w !! file_path = Some entry →
     tables_of (cache_data (load_and_analyze_data argsort) file_path w).1
               (cache_data (load_and_analyze_data argsort) file_path w).2
       = value entry ∧
     page (cache_data (load_and_analyze_data argsort) file_path w).2
       = page w ++ elements entry ∧
     cache (cache_data (load_and_analyze_data argsort) file_path w).2 = cache w) ∧
  (cache w !! file_path = None →
   (∀ exc,
      (pd.read_csv file_path w).1 = inl exc →
      (cache_data (load_and_analyze_data argsort) file_path w).1 = (None, None) ∧
      cache (cache_data (load_and_analyze_data argsort) file_path w).2
        = <[file_path := mkCacheEntry (None, None)
                           [error (error_message file_path exc)]]> (cache w)) ∧
   (∀ df,
      files w !! file_path = Some (Csv df) →
      cache (cache_data (load_and_analyze_data argsort) file_path w).2
        = <[file_path := mkCacheEntry
                           (Some (top_10_ev_counts argsort df),
                            Some (avg_range_by_type argsort df)) []]> (cache w))).
Proof.
  assert (cache w !! file_path = None →
   (∀ exc,
      (pd.read_csv file_path w).1 = inl exc →
      (cache_data (load_and_analyze_data argsort) file_path w).1 = (None, None) ∧
      cache (cache_data (load_and_analyze_data argsort) file_path w).2
        = <[file_path := mkCacheEntry (None, None)
                           [error (error_message file_path exc)]]> (cache w)) ∧
   (∀ df,
      files w !! file_path = Some (Csv df) →
      cache (cache_data (load_and_analyze_data argsort) file_path w).2
        = <[file_path := mkCacheEntry
                           (Some (top_10_ev_counts argsort df),
                            Some (avg_range_by_type argsort df)) []]> (cache w)))
    as Hmiss.
  { intros Hnone. unfold cache_data. rewrite Hnone. split.
    - intros exc Hexc. rewrite (load_and_analyze_data_raised _ _ _ _ Hexc).
      cbn. by rewrite drop_app_length.
    - intros df Hfile.
      pose proof (load_and_analyze_data_tables argsort _ _ _ Hfile) as Htab.
      rewrite (load_and_analyze_data_loaded _ _ _ _ Hfile) in Htab |- *.
      cbn [fst snd] in Htab. unfold tables_of in Htab.
      cbn [fst snd cache page files heap allocated]. rewrite Htab.
      by rewrite drop_all. }
  assert (∀ entry,
     cache w !! file_path = Some entry →
     tables_of (cache_data (load_and_analyze_data argsort) file_path w).1
               (cache_data (load_and_analyze_data argsort) file_path w).2
       = value entry ∧
     page (cache_data (load_and_analyze_data argsort) file_path w).2
       = page w ++ elements entry ∧
     cache (cache_data (load_and_analyze_data argsort) file_path w).2 = cache w)
    as Hhit.
  { intros entry Hentry. unfold cache_data. rewrite Hentry.
    destruct (tables_of_unpickle (value entry)
                (mkWorld (files w) (heap w) (page w ++ elements entry) (cache w)))
      as (? & ? & ? & ?). done. }
  split_and!; [done| |done..].
  intros q entry Hq.
  destruct (cache w !! file_path) as [entry'|] eqn:Hp.
  - destruct (Hhit entry' eq_refl) as (_ & _ & ->). done.
  - destruct (Hmiss eq_refl) as [Hraised Hloaded].
    assert (q ≠ file_path) by (intros ->; congruence).
    destruct (files w !! file_path) as [[df|e]|] eqn:Hfile.
    + rewrite (Hloaded df eq_refl). by rewrite lookup_insert_ne.
    + destruct (Hraised (pd.Exception e)) as [_ ->];
        [unfold pd.read_csv; by rewrite Hfile|]. by rewrite lookup_insert_ne.
    + destruct (Hraised pd.FileNotFoundError) as [_ ->];
        [unfold pd.read_csv; by rewrite Hfile|]. by rewrite lookup_insert_ne.
Qed.

(** C8 as stated fails.  The process starts with an empty cache and without
    the file: the first call fails, and its [(None, None)] is stored under
    the path.  Once the file is there, the function itself would load it,
    but the cached call answers [(None, None)] from the cache and allocates
    no frame. *)
Lemma failed_load_fills_the_cache :
  cache (process_start ∅) !! "data.csv" = None ∧
  (pd.read_csv "data.csv" (process_start ∅)).1 = inl pd.FileNotFoundError ∧
  (cache_data (load_and_analyze_data npy.argsort) "data.csv" (process_start ∅)).1
    = (None, None) ∧
  cache (cache_data (load_and_analyze_data npy.argsort) "data.csv"
           (process_start ∅)).2 !! "data.csv"
    = Some (mkCacheEntry (None, None)
              [error (error_message "data.csv" pd.FileNotFoundError)]) ∧
  (load_and_analyze_data npy.argsort "data.csv"
     (with_files {[ "data.csv" := Csv sample ]}
        (rerun (cache_data (load_and_analyze_data npy.argsort) "data.csv"
                  (process_start ∅)).2))).1
    = (Some 3, Some 5) ∧
  (cache_data (load_and_analyze_data npy.argsort) "data.csv"
     (with_files {[ "data.csv" := Csv sample ]}
        (rerun (cache_data (load_and_analyze_data npy.argsort) "data.csv"
                  (process_start ∅)).2))).1
    = (None, None) ∧
  heap (cache_data (load_and_analyze_data npy.argsort) "data.csv"
     (with_files {[ "data.csv" := Csv sample ]}
        (rerun (cache_data (load_and_analyze_data npy.argsort) "data.csv"
                  (process_start ∅)).2))).2
    = [].
Proof. split_and!; reflexivity. Qed.

(** ** Effects of the function *)

(** C9: [load_and_analyze_data] leaves the files, the cache and every
    object that existed before the call as they were.  The frame it loads
    holds the rows of the file when it is read and still holds them when the
    function returns; besides it the function only allocates five more
    frames, the two tables among them, and shows nothing.  When the load
    fails nothing is allocated and the error message alone is shown. *)
Theorem load_and_analyze_data_leaves_input_untouched
    (argsort : Argsort) (file_path : string) (w : World) :
  files (load_and_analyze_data argsort file_path w).2 = files w ∧
  cache (load_and_analyze_data argsort file_path w).2 = cache w ∧
  (∀ r o, heap w !! r = Some o →
          heap (load_and_analyze_data argsort file_path w).2 !! r = Some o) ∧
  match files w !! file_path with
  | Some (Csv rows) =>
      (pd.read_csv file_path w).1 = inr (length (heap w)) ∧
      heap (pd.read_csv file_path w).2 !! length (heap w) = Some (InputFrame rows) ∧
      heap (load_and_analyze_data argsort file_path w).2 !! length (heap w)
        = Some (InputFrame rows) ∧
      length (heap (load_and_analyze_data argsort file_path w).2)
        = length (heap w) + 6 ∧
      page (load_and_analyze_data argsort file_path w).2 = page w
  | Some (Unreadable e) =>
      heap (load_and_analyze_data argsort file_path w).2 = heap w ∧
      page (load_and_analyze_data argsort file_path w).2
        = page w ++ [error (error_message file_path (pd.Exception e))]
  | None =>
      heap (load_and_analyze_data argsort file_path w).2 = heap w ∧
      page (load_and_analyze_data argsort file_path w).2
        = page w ++ [error (error_message file_path pd.FileNotFoundError)]
  end.
Proof.
  destruct (files w !! file_path) as [[rows|e]|] eqn:Hfile.
  - rewrite (load_and_analyze_data_loaded _ _ _ rows Hfile).
    unfold pd.read_csv, new. rewrite Hfile.
    cbn [fst snd files heap page cache allocated].
    split_and!; try done.
    + intros r o Hr. by apply lookup_app_l_Some.
    + by rewrite lookup_app_length.
    + by rewrite lookup_app_length.
    + by rewrite length_app.
  - rewrite (load_and_analyze_data_raised _ _ _ (pd.Exception e))
      by (unfold pd.read_csv; by rewrite Hfile). done.
  - rewrite (load_and_analyze_data_raised _ _ _ pd.FileNotFoundError)
      by (unfold pd.read_csv; by rewrite Hfile). done.
Qed.

(** ** More on table A *)

(** Table A has ten rows once the input has ten distinct (Make, Model Year)
    pairs, and one row per pair below that. *)
Theorem table_A_length (argsort : Argsort) (df : DataFrame) :
  argsort_ok_perm (argsort nat int64) (counts_column df) →
  length (top_10_ev_counts argsort df)
  = 10 `min` length (remove_dups (omap make_year df)).
Proof.
  intros Hperm. unfold top_10_ev_counts, head.
  rewrite length_take, (ev_counts_by_make_year_Permutation _ _ Hperm).
  by rewrite length_groupby_size.
Qed.

Lemma table_A_length_witness :
  length (remove_dups (omap make_year eighteen_makes)) = 18 ∧
  length (top_10_ev_counts npy.argsort eighteen_makes)
  = 10 `min` length (remove_dups (omap make_year eighteen_makes)).
Proof.
  split; [reflexivity|].
  apply (table_A_length npy.argsort eighteen_makes).
  apply argsort_ok_intro; vm_compute; reflexivity.
Defined.

Lemma descending_int64_StronglySorted (l : list nat) :
  descending l → StronglySorted (λ x y, y ≤ x) l.
Proof.
  intros Hd. apply Sorted_StronglySorted.
  - intros x y z ??. lia.
  - induction Hd as [|x l _ IH Hhd]; constructor; [done|].
    destruct Hhd; constructor. by apply int64_not_less.
Qed.

(** Table A is the top of the ranking: a group that is left out has no more
    vehicles than any group that is kept. *)
Theorem table_A_keeps_the_largest_groups
    (argsort : Argsort) (df : DataFrame) (a c : CountRow) :
  argsort_ok (argsort nat int64) (counts_column df) →
  a ∈ top_10_ev_counts argsort df →
  c ∈ groupby_size df →
  c ∉ top_10_ev_counts argsort df →
  Total_EVs c ≤ Total_EVs a.
Proof.
  intros Hok Ha Hc Hnc.
  pose proof (ev_counts_by_make_year_Permutation _ _ (proj1 Hok)) as Hperm.
  rewrite <- Hperm in Hc.
  unfold top_10_ev_counts, head in *.
  rewrite <- (take_drop 10 (ev_counts_by_make_year argsort df)) in Hc.
  apply elem_of_app in Hc as [Hc|Hc]; [done|].
  assert (StronglySorted (λ x y, y ≤ x)
            (Total_EVs <$> ev_counts_by_make_year argsort df)) as Hs.
  { apply descending_int64_StronglySorted.
    rewrite <- omap_Some_fmap. apply sort_values_descending.
    by rewrite omap_Some_fmap. }
  rewrite <- (take_drop 10 (ev_counts_by_make_year argsort df)), fmap_app in Hs.
  eapply (StronglySorted_app_1_elem_of _ _ _ (Total_EVs a) (Total_EVs c)) in Hs;
    [done|by apply list_elem_of_fmap_2..].
Qed.

Lemma table_A_keeps_the_largest_groups_witness :
  mkCountRow "A" 2020 2 ∈ top_10_ev_counts npy.argsort nineteen_rows ∧
  mkCountRow "R" 2020 1 ∈ groupby_size nineteen_rows ∧
  (mkCountRow "R" 2020 1 ∉ top_10_ev_counts npy.argsort nineteen_rows) ∧
  Total_EVs (mkCountRow "R" 2020 1) ≤ Total_EVs (mkCountRow "A" 2020 2).
Proof.
  assert (mkCountRow "A" 2020 2 ∈ top_10_ev_counts npy.argsort nineteen_rows) as Ha
    by (apply (bool_decide_unpack _); vm_compute; exact I).
  assert (mkCountRow "R" 2020 1 ∈ groupby_size nineteen_rows) as Hc
    by (apply (bool_decide_unpack _); vm_compute; exact I).
  assert (mkCountRow "R" 2020 1 ∉ top_10_ev_counts npy.argsort nineteen_rows) as Hnc
    by (apply (bool_decide_unpack _); vm_compute; exact I).
  assert (argsort_ok (npy.argsort nat int64) (counts_column nineteen_rows)) as Hok
    by (apply argsort_ok_intro; vm_compute; reflexivity).
  split_and!; [done..|].
  apply (table_A_keeps_the_largest_groups npy.argsort nineteen_rows _ _ Hok Ha Hc Hnc).
Defined.

Lemma make_year_Some (r : Row) (m : string) (y : Z) :
  make_year r = Some (m, y) ↔ Make r = Some m ∧ Model_Year r = Some y.
Proof.
  unfold make_year. destruct (Make r), (Model_Year r); split;
    try (intros [[=] [=]]); try (intros [=]); by subst.
Qed.

(** Every row of table A stands for a pair that occurs: its Total EVs is
    the number of input rows with exactly that Make and Model Year, and is at
    least one; and no pair has two rows. *)
Theorem table_A_rows_count_matching_rows (argsort : Argsort) (df : DataFrame) :
  argsort_ok_perm (argsort nat int64) (counts_column df) →
  NoDup ((λ c, (cr_Make c, cr_Model_Year c)) <$> top_10_ev_counts argsort df) ∧
  ∀ c, c ∈ top_10_ev_counts argsort df →
       1 ≤ Total_EVs c ∧
       Total_EVs c
       = length (filter (λ r, Make r = Some (cr_Make c) ∧
                              Model_Year r = Some (cr_Model_Year c)) df).
Proof.
  intros Hperm. split.
  - unfold top_10_ev_counts, head. rewrite fmap_take.
    eapply sublist_NoDup; [|apply sublist_take].
    rewrite (ev_counts_by_make_year_Permutation _ _ Hperm).
    unfold groupby_size. rewrite <- list_fmap_compose.
    erewrite list_fmap_ext; [rewrite list_fmap_id; apply NoDup_group_keys|].
    by intros _ [m y] _.
  - intros c [Hc (r & Hr & Hk)]%elem_of_top_10_ev_counts%elem_of_groupby_size.
    assert (get_group make_year (cr_Make c, cr_Model_Year c) df
            = filter (λ r, Make r = Some (cr_Make c) ∧
                           Model_Year r = Some (cr_Model_Year c)) df) as Heq.
    { apply list_filter_iff. intros r'. apply make_year_Some. }
    rewrite <- Heq, Hc. split; [|done].
    assert (r ∈ get_group make_year (cr_Make c, cr_Model_Year c) df) as Hin
      by (by apply list_elem_of_filter).
    destruct (get_group make_year (cr_Make c, cr_Model_Year c) df);
      [by apply elem_of_nil in Hin|simpl; lia].
Qed.

Lemma table_A_rows_count_matching_rows_witness :
  NoDup ((λ c, (cr_Make c, cr_Model_Year c)) <$> top_10_ev_counts npy.argsort sample) ∧
  ∀ c, c ∈ top_10_ev_counts npy.argsort sample →
       1 ≤ Total_EVs c ∧
       Total_EVs c
       = length (filter (λ r, Make r = Some (cr_Make c) ∧
                              Model_Year r = Some (cr_Model_Year c)) sample).
Proof.
  apply (table_A_rows_count_matching_rows npy.argsort sample).
  apply argsort_ok_intro; vm_compute; reflexivity.
Defined.

(** ** More on table B *)

(** Table B is not cut: it has one row for each distinct vehicle type
    present in the input. *)
Theorem table_B_length (argsort : Argsort) (df : DataFrame) :
  argsort_ok_perm (argsort Q float64) (averages_column df) →
  length (avg_range_by_type argsort df)
  = length (remove_dups (omap Electric_Vehicle_Type df)).
Proof.
  intros Hperm. unfold avg_range_by_type.
  rewrite (sort_values_Permutation _ _ _ Hperm).
  unfold groupby_mean. rewrite length_fmap, group_keys_Permutation.
  by rewrite omap_id_fmap.
Qed.

Lemma table_B_length_witness :
  length (remove_dups (omap Electric_Vehicle_Type sample_missing_type)) = 1 ∧
  length (avg_range_by_type npy.argsort sample_missing_type)
  = length (remove_dups (omap Electric_Vehicle_Type sample_missing_type)).
Proof.
  split; [reflexivity|].
  apply (table_B_length npy.argsort sample_missing_type).
  apply argsort_ok_intro; vm_compute; reflexivity.
Defined.

(** ** The order of the groups *)

Lemma ascii_compare_Lt_trans (a b c : Ascii.ascii) :
  Ascii.compare a b = Lt → Ascii.compare b c = Lt → Ascii.compare a c = Lt.
Proof. unfold Ascii.compare. rewrite !N.compare_lt_iff. lia. Qed.

Lemma string_compare_Lt_trans (s1 s2 s3 : string) :
  String.compare s1 s2 = Lt → String.compare s2 s3 = Lt →
  String.compare s1 s3 = Lt.
Proof.
  revert s2 s3. induction s1 as [|c1 s1 IH]; intros [|c2 s2] [|c3 s3]; simpl;
    try done.
  destruct (Ascii.compare c1 c2) eqn:E12; try done;
    destruct (Ascii.compare c2 c3) eqn:E23; try done.
  - apply Ascii.compare_eq_iff in E12 as ->. rewrite E23. apply IH.
  - apply Ascii.compare_eq_iff in E12 as ->. by rewrite E23.
  - apply Ascii.compare_eq_iff in E23 as <-. by rewrite E12.
  - by rewrite (ascii_compare_Lt_trans _ _ _ E12 E23).
Qed.

#[global] Instance tuple_le_total : Total tuple_le.
Proof.
  intros [m1 y1] [m2 y2]. unfold tuple_le, tuple_leb. simpl.
  rewrite (String.compare_antisym m2 m1).
  destruct (String.compare m1 m2); simpl; [|by left|by right].
  destruct (Z.leb_spec y1 y2); [by left|right].
  apply Is_true_true, Z.leb_le. lia.
Qed.

#[global] Instance tuple_le_trans : Transitive tuple_le.
Proof.
  intros [m1 y1] [m2 y2] [m3 y3]. unfold tuple_le, tuple_leb. simpl.
  destruct (String.compare m1 m2) eqn:E12; [| |done];
    (destruct (String.compare m2 m3) eqn:E23; [| |done]).
  - apply String.compare_eq_iff in E12 as ->. rewrite E23.
    rewrite !Is_true_true, !Z.leb_le. lia.
  - apply String.compare_eq_iff in E12 as ->. by rewrite E23.
  - apply String.compare_eq_iff in E23 as <-. by rewrite E12.
  - by rewrite (string_compare_Lt_trans _ _ _ E12 E23).
Qed.

#[global] Instance tuple_le_antisym : AntiSymm (=) tuple_le.
Proof.
  intros [m1 y1] [m2 y2]. unfold tuple_le, tuple_leb. simpl.
  rewrite (String.compare_antisym m2 m1).
  destruct (String.compare m1 m2) eqn:E; simpl; try done.
  apply String.compare_eq_iff in E as ->.
  rewrite !Is_true_true, !Z.leb_le. intros ??. f_equal. lia.
Qed.

Lemma groupby_size_keys (df : DataFrame) :
  cr_key <$> groupby_size df = group_keys tuple_le (make_year <$> df).
Proof.
  unfold groupby_size. rewrite <- list_fmap_compose.
  erewrite list_fmap_ext; [apply list_fmap_id|]. by intros _ [m y] _.
Qed.

(** The aggregation of line 33 lists the groups by increasing Make, and by
    increasing Model Year within a Make, for years that the column holds
    exactly; no two rows have the same pair. *)
Theorem groupby_size_in_key_order (df : DataFrame) (i : nat) (a b : CountRow) :
  Forall exact_year df →
  groupby_size df !! i = Some a →
  groupby_size df !! S i = Some b →
  tuple_le (cr_key a) (cr_key b) ∧ cr_key a ≠ cr_key b.
Proof.
  intros _ Ha Hb.
  assert ((cr_key <$> groupby_size df) !! i = Some (cr_key a)) as Hka
    by (by rewrite list_lookup_fmap, Ha).
  assert ((cr_key <$> groupby_size df) !! S i = Some (cr_key b)) as Hkb
    by (by rewrite list_lookup_fmap, Hb).
  rewrite groupby_size_keys in Hka, Hkb. split.
  - eapply Sorted_lookup_S; [|exact Hka|exact Hkb].
    apply Sorted_merge_sort, _.
  - intros Heq. rewrite <- Heq in Hkb.
    pose proof (NoDup_lookup _ _ _ _
                  (NoDup_group_keys tuple_le (make_year <$> df)) Hka Hkb). lia.
Qed.

Lemma groupby_size_in_key_order_witness :
  Forall exact_year sample ∧
  groupby_size sample = [mkCountRow "Nissan" 2019 1; mkCountRow "Tesla" 2020 2] ∧
  tuple_le (cr_key (mkCountRow "Nissan" 2019 1)) (cr_key (mkCountRow "Tesla" 2020 2)) ∧
  cr_key (mkCountRow "Nissan" 2019 1) ≠ cr_key (mkCountRow "Tesla" 2020 2).
Proof.
  assert (Forall exact_year sample) as Hyears
    by (apply (bool_decide_unpack _); vm_compute; exact I).
  split; [exact Hyears|]. split; [reflexivity|].
  apply (groupby_size_in_key_order sample 0 _ _ Hyears); reflexivity.
Defined.

Lemma group_keys_Permutation_eq (keys keys' : list (option (string * Z))) :
  keys ≡ₚ keys' → group_keys tuple_le keys = group_keys tuple_le keys'.
Proof.
  intros Hperm. unfold group_keys. apply (Sorted_unique tuple_le).
  - apply Sorted_merge_sort, _.
  - apply Sorted_merge_sort, _.
  - rewrite !merge_sort_Permutation.
    apply NoDup_Permutation; [apply NoDup_remove_dups..|].
    intros k. rewrite !elem_of_remove_dups. by rewrite Hperm.
Qed.

(** Table A does not depend on the order of the rows in the file: the
    same rows in any order give the same counts and the same table. *)
Theorem table_A_independent_of_row_order (argsort : Argsort) (df df' : DataFrame) :
  df ≡ₚ df' →
  groupby_size df = groupby_size df' ∧
  top_10_ev_counts argsort df = top_10_ev_counts argsort df'.
Proof.
  intros Hperm.
  assert (groupby_size df = groupby_size df') as Hg.
  { unfold groupby_size.
    rewrite (group_keys_Permutation_eq (make_year <$> df) (make_year <$> df'))
      by (by rewrite Hperm).
    apply list_fmap_ext. intros _ k _. f_equal.
    unfold get_group. by rewrite Hperm. }
  split; [done|].
  unfold top_10_ev_counts, ev_counts_by_make_year. by rewrite Hg.
Qed.

Lemma table_A_independent_of_row_order_witness :
  top_10_ev_counts npy.argsort (reverse sample)
    = [mkCountRow "Tesla" 2020 2; mkCountRow "Nissan" 2019 1] ∧
  groupby_size sample = groupby_size (reverse sample) ∧
  top_10_ev_counts npy.argsort sample = top_10_ev_counts npy.argsort (reverse sample).
Proof.
  split; [reflexivity|].
  apply (table_A_independent_of_row_order npy.argsort sample (reverse sample)).
  symmetry. apply reverse_Permutation.
Defined.

(** ** Runs of the script *)

Lemma main_unfold (argsort : Argsort) (w : World) :
  main argsort w
  = render (cache_data (load_and_analyze_data argsort) FILE_PATH
              (shown (markdown "---")
                 (shown (title "🔌 Electric Vehicle Population Dataset Analysis") w))).1
           (cache_data (load_and_analyze_data argsort) FILE_PATH
              (shown (markdown "---")
                 (shown (title "🔌 Electric Vehicle Population Dataset Analysis") w))).2.
Proof.
  unfold main, render, st.title, st.markdown, emit, shown, mbind, M_bind.
  cbn [fst snd].
  by destruct (cache_data _ _ _) as [[[a|] [b|]] w'].
Qed.

Lemma run_bind {A B} (m : M A) (f : A → M B) (w : World) :
  (m ≫= f) w = f (m w).1 (m w).2.
Proof. done. Qed.

Lemma run_dataframe (r : ref) (o : PyObject) (w : World) :
  heap w !! r = Some o → st.dataframe r w = ((), shown (dataframe o) w).
Proof.
  intros Hr. unfold st.dataframe. rewrite run_bind. unfold get.
  cbn [fst snd]. by rewrite Hr.
Qed.

Lemma run_altair_chart (r : ref) (o : PyObject) (w : World) :
  heap w !! r = Some o → st.altair_chart r w = ((), shown (altair_chart o) w).
Proof.
  intros Hr. unfold st.altair_chart. rewrite run_bind. unfold get.
  cbn [fst snd]. by rewrite Hr.
Qed.

(** Line 83 replaces the frame by itself with one more column. *)
Lemma run_assign_Make_Year (top : ref) (rows : list CountRow)
    (col : option (list string)) (w : World) :
  heap w !! top = Some (CountsFrame rows col) →
  assign_Make_Year top w
  = ((), mkWorld (files w)
           (<[top := CountsFrame rows (Some (Make_Year_labels rows))]> (heap w))
           (page w) (cache w)).
Proof.
  intros Hr. unfold assign_Make_Year. rewrite run_bind. unfold get.
  cbn [fst snd]. by rewrite Hr.
Qed.

(** One statement of the rendering part done. *)
Ltac run_step lem :=
  rewrite run_bind, lem; cbn [fst snd]; unfold shown; cbn [files heap page cache].

Lemma render_tables (a b : ref) (A : list CountRow) (B : list AvgRow) (w : World) :
  heap w !! a = Some (CountsFrame A None) →
  heap w !! b = Some (AveragesFrame B) →
  (render (Some a, Some b) w).2
  = mkWorld (files w)
      (<[a := CountsFrame A (Some (Make_Year_labels A))]> (heap w))
      (page w ++ rendered_sections A B) (cache w).
Proof.
  intros Ha Hb.
  assert (a ≠ b) as Hab by (intros ->; congruence).
  pose proof (lookup_lt_Some _ _ _ Ha) as Hlt.
  assert (∀ e w0, emit e w0 = ((), shown e w0)) as Hemit by done.
  unfold render, st.header, st.info, st.subheader, st.markdown, st.caption.
  run_step Hemit. run_step Hemit. run_step Hemit.
  run_step (run_dataframe a (CountsFrame A None)); [|done].
  run_step Hemit.
  run_step (run_assign_Make_Year a A None); [|done].
  run_step (run_altair_chart a (CountsFrame A (Some (Make_Year_labels A))));
    [|by apply list_lookup_insert_eq].
  run_step Hemit. run_step Hemit. run_step Hemit. run_step Hemit.
  run_step (run_dataframe b (AveragesFrame B));
    [|by rewrite list_lookup_insert_ne].
  run_step Hemit.
  run_step (run_altair_chart b (AveragesFrame B));
    [|by rewrite list_lookup_insert_ne].
  run_step Hemit.
  rewrite Hemit. cbn [fst snd]. unfold shown. cbn [files heap page cache].
  unfold rendered_sections. f_equal.
  rewrite <- !app_assoc. reflexivity.
Qed.

Section script_runs.
Variable argsort : Argsort.

(** The cached call on a miss, the file loading. *)
Lemma cache_data_miss_loaded (file_path : string) (w : World) (df : DataFrame) :
  files w !! file_path = Some (Csv df) →
  cache w !! file_path = None →
  cache_data (load_and_analyze_data argsort) file_path w
  = ((Some (length (heap w) + 3), Some (length (heap w) + 5)),
     mkWorld (files w)
       (heap w ++ [InputFrame df;
                   CountsFrame (groupby_size df) None;
                   CountsFrame (ev_counts_by_make_year argsort df) None;
                   CountsFrame (top_10_ev_counts argsort df) None;
                   AveragesFrame (groupby_mean df);
                   AveragesFrame (avg_range_by_type argsort df)])
       (page w)
       (<[file_path := mkCacheEntry (Some (top_10_ev_counts argsort df),
                                     Some (avg_range_by_type argsort df)) []]>
          (cache w))).
Proof.
  intros Hfile Hnone. unfold cache_data. rewrite Hnone.
  pose proof (load_and_analyze_data_tables argsort _ _ _ Hfile) as Htab.
  rewrite (load_and_analyze_data_loaded _ _ _ _ Hfile) in Htab |- *.
  cbn [fst snd] in Htab. unfold tables_of in Htab.
  cbn [fst snd cache page files heap allocated]. rewrite Htab.
  by rewrite drop_all.
Qed.

(** The cached call on a miss, the load failing. *)
Lemma cache_data_miss_raised (file_path : string) (w : World) (exc : pd.Raised) :
  (pd.read_csv file_path w).1 = inl exc →
  cache w !! file_path = None →
  cache_data (load_and_analyze_data argsort) file_path w
  = ((None, None),
     mkWorld (files w) (heap w)
       (page w ++ [error (error_message file_path exc)])
       (<[file_path := mkCacheEntry (None, None)
                         [error (error_message file_path exc)]]> (cache w))).
Proof.
  intros Hexc Hnone. unfold cache_data. rewrite Hnone.
  rewrite (load_and_analyze_data_raised _ _ _ _ Hexc).
  cbn. by rewrite drop_app_length.
Qed.

(** The script on a miss, the file loading. *)
Lemma main_miss_loaded (w : World) (df : DataFrame) :
  files w !! FILE_PATH = Some (Csv df) →
  cache w !! FILE_PATH = None →
  (main argsort w).2
  = mkWorld (files w)
      (heap w ++ [InputFrame df;
                  CountsFrame (groupby_size df) None;
                  CountsFrame (ev_counts_by_make_year argsort df) None;
                  CountsFrame (top_10_ev_counts argsort df)
                    (Some (Make_Year_labels (top_10_ev_counts argsort df)));
                  AveragesFrame (groupby_mean df);
                  AveragesFrame (avg_range_by_type argsort df)])
      (page w ++ page_head
         ++ rendered_sections (top_10_ev_counts argsort df)
              (avg_range_by_type argsort df))
      (<[FILE_PATH := mkCacheEntry (Some (top_10_ev_counts argsort df),
                                    Some (avg_range_by_type argsort df)) []]>
         (cache w)).
Proof.
  intros Hfile Hnone. rewrite main_unfold.
  rewrite (cache_data_miss_loaded _ _ df) by done.
  cbn [fst snd shown files heap page cache].
  rewrite (render_tables _ _ (top_10_ev_counts argsort df)
             (avg_range_by_type argsort df));
    cbn [files heap page cache]; [|by heap_simpl..].
  f_equal.
  - rewrite insert_app_r. reflexivity.
  - unfold page_head. rewrite <- !app_assoc. reflexivity.
Qed.

(** The script on a miss, the load failing. *)
Lemma main_miss_raised (w : World) (exc : pd.Raised) :
  (pd.read_csv FILE_PATH w).1 = inl exc →
  cache w !! FILE_PATH = None →
  (main argsort w).2
  = mkWorld (files w) (heap w)
      (page w ++ page_head ++ [error (error_message FILE_PATH exc)])
      (<[FILE_PATH := mkCacheEntry (None, None)
                        [error (error_message FILE_PATH exc)]]> (cache w)).
Proof.
  intros Hexc Hnone. rewrite main_unfold.
  rewrite (cache_data_miss_raised _ _ exc);
    [|by eapply read_csv_raised_files, Hexc|done].
  cbn. unfold page_head. by rewrite <- !app_assoc.
Qed.

(** The script on a hit: the stored elements are replayed and the stored
    tables rendered from fresh copies. *)
Lemma main_hit (w : World) (entry : CacheEntry) :
  cache w !! FILE_PATH = Some entry →
  page (main argsort w).2
    = page w ++ page_head ++ elements entry ++ sections_of (value entry) ∧
  cache (main argsort w).2 = cache w ∧
  files (main argsort w).2 = files w ∧
  ∀ r o, heap w !! r = Some o → heap (main argsort w).2 !! r = Some o.
Proof.
  intros Hentry. rewrite main_unfold. unfold cache_data.
  cbn [shown files heap page cache]. rewrite Hentry.
  destruct entry as [[[A|] [B|]] els];
    unfold unpickle, mbind, M_bind, mret, M_ret, new;
    cbn [fst snd value elements files heap page cache sections_of].
  - rewrite (render_tables _ _ A B); cbn [files heap page cache];
      [|by heap_simpl..].
    split_and!; try done.
    + unfold page_head. by rewrite <- !app_assoc.
    + intros r o Hr. rewrite <- app_assoc.
      rewrite list_lookup_insert_ne
        by (apply lookup_lt_Some in Hr; lia).
      by apply lookup_app_l_Some.
  - split_and!; try done.
    + unfold page_head. by rewrite <- !app_assoc, app_nil_r.
    + intros r o Hr. by apply lookup_app_l_Some.
  - split_and!; try done.
    + unfold page_head. by rewrite <- !app_assoc, app_nil_r.
    + intros r o Hr. by apply lookup_app_l_Some.
  - split_and!; try done.
    unfold page_head. by rewrite <- !app_assoc, app_nil_r.
Qed.
End script_runs.

(** ** What a run shows *)



(** A run that finds its path in the cache shows what is stored, the
    replayed elements and the sections of the stored tables, whatever the
    files hold by then; it leaves the cache and the files as they are. *)
Theorem cached_run_ignores_the_files
    (argsort : Argsort) (w : World) (entry : CacheEntry) (fs : gmap string File) :
  cache w !! FILE_PATH = Some entry →
  page (main argsort (with_files fs w)).2
    = page w ++ page_head ++ elements entry ++ sections_of (value entry) ∧
  cache (main argsort (with_files fs w)).2 = cache w ∧
  files (main argsort (with_files fs w)).2 = fs.
Proof.
  intros Hentry.
  destruct (main_hit argsort (with_files fs w) entry Hentry) as (? & ? & ? & _).
  done.
Qed.

(** Whatever the first run showed, the two sections or the error message,
    every later run of the process shows the same page, also after the file
    has appeared, changed or gone. *)
Theorem rerun_shows_the_same_page
    (argsort : Argsort) (w : World) (fs : gmap string File) :
  cache w !! FILE_PATH = None →
  page w = [] →
  page (main argsort (with_files fs (rerun (main argsort w).2))).2
  = page (main argsort w).2.
Proof.
  intros Hnone Hpage.
  destruct (files w !! FILE_PATH) as [[df|e]|] eqn:Hfile.
  - rewrite (main_miss_loaded argsort w df Hfile Hnone).
    edestruct (main_hit argsort) as (-> & _); [apply lookup_insert_eq|].
    cbn [rerun with_files page value elements sections_of]. by rewrite Hpage.
  - rewrite (main_miss_raised argsort w (pd.Exception e))
      by (unfold pd.read_csv; by rewrite ?Hfile).
    edestruct (main_hit argsort) as (-> & _); [apply lookup_insert_eq|].
    cbn [rerun with_files page value elements sections_of].
    by rewrite Hpage, app_nil_r.
  - rewrite (main_miss_raised argsort w pd.FileNotFoundError)
      by (unfold pd.read_csv; by rewrite ?Hfile).
    edestruct (main_hit argsort) as (-> & _); [apply lookup_insert_eq|].
    cbn [rerun with_files page value elements sections_of].
    by rewrite Hpage, app_nil_r.
Qed.

Lemma rerun_shows_the_same_page_witness :
  page (main npy.argsort
          (with_files {[ FILE_PATH := Csv sample ]}
             (rerun (main npy.argsort (process_start ∅)).2))).2
  = page (main npy.argsort (process_start ∅)).2.
Proof.
  apply (rerun_shows_the_same_page npy.argsort (process_start ∅)
           {[ FILE_PATH := Csv sample ]}).
  - apply lookup_empty.
  - reflexivity.
Defined.

(** A run of the script writes no file, changes no object that was there
    before it (line 83 adds its column to a frame of this run), keeps what
    the page showed and keeps every entry of the cache. *)
Theorem script_keeps_what_was_there (argsort : Argsort) (w : World) :
  files (main argsort w).2 = files w ∧
  (∀ r o, heap w !! r = Some o → heap (main argsort w).2 !! r = Some o) ∧
  page w `prefix_of` page (main argsort w).2 ∧
  (∀ p e, cache w !! p = Some e → cache (main argsort w).2 !! p = Some e).
Proof.
  destruct (cache w !! FILE_PATH) as [entry|] eqn:Hcache.
  - destruct (main_hit argsort w entry Hcache) as (Hpage & Hc & Hf & Hh).
    split_and!; [done..| |by rewrite Hc].
    rewrite Hpage. by eexists.
  - assert (∀ entry p e, cache w !! p = Some e →
              <[FILE_PATH := entry]> (cache w) !! p = Some e) as Hkeep.
    { intros entry p e Hp. rewrite lookup_insert_ne; [done|]. intros <-. congruence. }
    destruct (files w !! FILE_PATH) as [[df|e]|] eqn:Hfile.
    + rewrite (main_miss_loaded _ _ df) by done. cbn [files heap page cache].
      split_and!; [done| |by eexists|apply Hkeep].
      intros r o Hr. by apply lookup_app_l_Some.
    + rewrite (main_miss_raised _ _ (pd.Exception e))
        by (unfold pd.read_csv; by rewrite ?Hfile). cbn [files heap page cache].
      split_and!; [done..|by eexists|apply Hkeep].
    + rewrite (main_miss_raised _ _ pd.FileNotFoundError)
        by (unfold pd.read_csv; by rewrite ?Hfile). cbn [files heap page cache].
      split_and!; [done..|by eexists|apply Hkeep].
Qed.

Lemma cached_run_ignores_the_files_witness :
  cache stale_world !! FILE_PATH = Some (mkCacheEntry (None, None) [error "gone"]) ∧
  page (main npy.argsort (with_files {[ FILE_PATH := Csv sample ]} stale_world)).2
    = page stale_world ++ page_head ++
      elements (mkCacheEntry (None, None) [error "gone"]) ++
      sections_of (value (mkCacheEntry (None, None) [error "gone"])) ∧
  cache (main npy.argsort (with_files {[ FILE_PATH := Csv sample ]} stale_world)).2
    = cache stale_world ∧
  files (main npy.argsort (with_files {[ FILE_PATH := Csv sample ]} stale_world)).2
    = {[ FILE_PATH := Csv sample ]}.
Proof.
  assert (cache stale_world !! FILE_PATH
          = Some (mkCacheEntry (None, None) [error "gone"])) as Hentry
    by apply lookup_singleton_eq.
  split; [exact Hentry|].
  apply (cached_run_ignores_the_files npy.argsort stale_world _
           {[ FILE_PATH := Csv sample ]} Hentry).
Defined.
